(** * treys / omaha: rank tables, the bit-sequence generator and the
      multi-card evaluator

    A shallow embedding of [src/treys/lookup.py] and
    [src/omaha/omahaevaluator.py].  Python integers are [Z] (unbounded, with
    two's-complement bit operations), dictionaries are finite maps, Python
    exceptions are the [Raise] branch of [result], and a generator object is
    an explicit state that [next] advances. *)

From Stdlib Require Import ZArith List Lia Bool String.
From stdpp Require Import gmap sorting.
Import ListNotations.
Open Scope Z_scope.

(** ** Exceptions *)

Inductive exn : Type :=
  | ZeroDivisionError
  | ValueError
  | IndexError
  | KeyError
  | AttributeError.

Inductive result (A : Type) : Type :=
  | Ok (a : A)
  | Raise (e : exn).
Arguments Ok {A} a.
Arguments Raise {A} e.

Definition bind {A B : Type} (m : result A) (k : A -> result B) : result B :=
  match m with
  | Ok a => k a
  | Raise e => Raise e
  end.

Notation "'do' x <- m ; k" := (bind m (fun x => k))
  (at level 10, x name, m at level 100, k at level 200).
Notation "'do' ' p <- m ; k" := (bind m (fun x => match x with p => k end))
  (at level 10, p pattern, m at level 100, k at level 200).

(** A Python [for x in l: body], the body updating a state and possibly
    raising. *)
Fixpoint for_each {A S : Type} (l : list A) (body : A -> S -> result S) (s : S)
  : result S :=
  match l with
  | [] => Ok s
  | x :: l' => do s' <- body x s; for_each l' body s'
  end.

(** [list.remove(x)]: drops the first occurrence, [ValueError] when absent. *)
Fixpoint list_remove (x : nat) (l : list nat) : result (list nat) :=
  match l with
  | [] => Raise ValueError
  | y :: l' =>
      if Nat.eqb y x then Ok l'
      else do r <- list_remove x l'; Ok (y :: r)
  end.

(** [itertools.combinations(l, k)], in the order the iterator emits. *)
Fixpoint combinations {A : Type} (l : list A) (k : nat) : list (list A) :=
  match k with
  | O => [[]]
  | S k' =>
      match l with
      | [] => []
      | x :: t => map (cons x) (combinations t k') ++ combinations t (S k')
      end
  end.

(** [list(range(13 - 1, -1, -1))] *)
Definition backwards_ranks : list nat := [12; 11; 10; 9; 8; 7; 6; 5; 4; 3; 2; 1; 0]%nat.

(** ** The card module *)

Module card.

(** Modelled from the spec: [card.PRIMES], the table of the card module
    (not among the sources), "a fixed table of 13 distinct small primes
    indexed by rank 0..12", the smallest prime for the lowest rank. *)
Definition PRIMES : list Z := [2; 3; 5; 7; 11; 13; 17; 19; 23; 29; 31; 37; 41].

(** [card.PRIMES[i]] for an index that is a rank. *)
Definition prime (i : nat) : result Z :=
  match nth_error PRIMES i with
  | Some p => Ok p
  | None => Raise IndexError
  end.

(** Modelled from the spec: [card.product_from_rankbits], of the card
    module (not among the sources): "given a 13-bit mask with exactly k
    bits set (each bit representing one of the 13 ranks), returns the list
    of k canonical cards it represents and the product of their primes".
    The cards are given by their ranks, lowest first. *)
Definition product_from_rankbits (rankbits : Z) : list nat * Z :=
  fold_left
    (fun '(cards, product) i =>
       if Z.testbit rankbits (Z.of_nat i)
       then (cards ++ [i], product * nth i PRIMES 1)
       else (cards, product))
    (seq 0 13) ([], 1).

End card.

(** ** [next_word]: the bit-sequence generator *)

(** One evaluation of
    [t = (w | (w - 1)) + 1; t | ((((t & -t) // (w & -w)) >> 1) - 1)];
    [//] is floor division and raises on a zero divisor. *)
Definition bit_identity (w : Z) : result Z :=
  let t := Z.lor w (w - 1) + 1 in
  let d := Z.land w (- w) in
  if d =? 0 then Raise ZeroDivisionError
  else Ok (Z.lor t (Z.shiftr (Z.land t (- t) / d) 1 - 1)).

(** The generator object: created with its argument and not yet started, or
    suspended at a [yield] with the local [w]. *)
Inductive generator : Type :=
  | Created (bits : Z)
  | Suspended (w : Z).

Definition next_word (bits : Z) : generator := Created bits.

(** [next(gen)]: runs to the following [yield]. *)
Definition next (gen : generator) : result (Z * generator) :=
  match gen with
  | Created bits => do w <- bit_identity bits; Ok (w, Suspended w)
  | Suspended w => do w' <- bit_identity w; Ok (w', Suspended w')
  end.

(** [for i in range(n): f = next(gen); l.append(f)] *)
Fixpoint pull (n : nat) (gen : generator) (l : list Z) : result (list Z * generator) :=
  match n with
  | O => Ok (l, gen)
  | S n' => do '(f, gen') <- next gen; pull n' gen' (l ++ [f])
  end.

(** Number of one bits of a non-negative integer. *)
Fixpoint pos_popcount (p : positive) : nat :=
  match p with
  | xH => 1
  | xO q => pos_popcount q
  | xI q => S (pos_popcount q)
  end.

Definition popcount (z : Z) : nat :=
  match z with
  | Z.pos p => pos_popcount p
  | _ => O
  end.

(** ** [LookupTable]: the five-card rank table *)

Module LookupTable.

Definition MAX_STRAIGHT_FLUSH : Z := 10.
Definition MAX_FOUR_OF_A_KIND : Z := 166.
Definition MAX_FULL_HOUSE : Z := 322.
Definition MAX_FLUSH : Z := 1599.
Definition MAX_STRAIGHT : Z := 1609.
Definition MAX_THREE_OF_A_KIND : Z := 2467.
Definition MAX_TWO_PAIR : Z := 3325.
Definition MAX_PAIR : Z := 6185.
Definition MAX_HIGH_CARD : Z := 7462.

(** The two class dictionaries, in the order they are written. *)
Definition MAX_TO_RANK_CLASS : list (Z * Z) :=
  [ (MAX_STRAIGHT_FLUSH, 1); (MAX_FOUR_OF_A_KIND, 2); (MAX_FULL_HOUSE, 3);
    (MAX_FLUSH, 4); (MAX_STRAIGHT, 5); (MAX_THREE_OF_A_KIND, 6);
    (MAX_TWO_PAIR, 7); (MAX_PAIR, 8); (MAX_HIGH_CARD, 9) ].

Definition RANK_CLASS_TO_STRING : list (Z * string) :=
  [ (1, "Straight Flush"%string); (2, "Four of a Kind"%string);
    (3, "Full House"%string); (4, "Flush"%string); (5, "Straight"%string);
    (6, "Three of a Kind"%string); (7, "Two Pair"%string);
    (8, "Pair"%string); (9, "High Card"%string) ].

(** The object's two dictionaries. *)
Record t : Type := mk { flush : gmap Z Z; unsuited : gmap Z Z }.

(** [for x in patterns: _, product = card.product_from_rankbits(x);
     d[product] = rank; rank += 1], from a given first rank; returns the
    dictionary and the counter as the loop leaves it. *)
Definition rank_patterns (patterns : list Z) (d : gmap Z Z) (rank : Z)
  : gmap Z Z * Z :=
  fold_left
    (fun '(d, rank) x =>
       let '(_, product) := card.product_from_rankbits x in
       (<[product := rank]> d, rank + 1))
    patterns (d, rank).

Definition straight_flushes : list Z :=
  [7936; 3968; 1984; 992; 496; 248; 124; 62; 31; 4111].

(** The inner loop over [straight_flushes] that clears [notSF]. *)
Definition notSF (f : Z) : bool :=
  fold_left
    (fun notSF sf => if Z.lxor f sf =? 0 then false else notSF)
    straight_flushes true.

(** The generation loop of [build_flushes]. *)
Fixpoint generate (n : nat) (gen : generator) (flushes : list Z)
  : result (list Z) :=
  match n with
  | O => Ok flushes
  | S n' =>
      do '(f, gen') <- next gen;
      generate n' gen' (if notSF f then flushes ++ [f] else flushes)
  end.

(** [flushes] once generated and reversed. *)
Definition flushes : result (list Z) :=
  do l <- generate (1277 + List.length straight_flushes - 1)
            (next_word 31) [];
  Ok (rev l).

Definition build_straight_and_highcards (self : t) (straights highcards : list Z) : t :=
  let '(u, _) := rank_patterns straights (unsuited self) (MAX_FLUSH + 1) in
  let '(u, _) := rank_patterns highcards u (MAX_PAIR + 1) in
  mk (flush self) u.

Definition build_flushes (self : t) : result t :=
  do flushes <- flushes;
  let '(f, _) := rank_patterns straight_flushes (flush self) 1 in
  let '(f, _) := rank_patterns flushes f (MAX_FULL_HOUSE + 1) in
  Ok (build_straight_and_highcards (mk f (unsuited self)) straight_flushes flushes).

(** The assignment [self.unsuited[product] = rank; rank += 1]. *)
Definition assign (product : Z) (st : gmap Z Z * Z) : gmap Z Z * Z :=
  let '(unsuited, rank) := st in (<[product := rank]> unsuited, rank + 1).

(** 1) Four of a Kind *)
Definition four_of_a_kind (unsuited : gmap Z Z) : result (gmap Z Z * Z) :=
  for_each backwards_ranks
    (fun i st =>
       do kickers <- list_remove i backwards_ranks;
       for_each kickers
         (fun k st =>
            do pi <- card.prime i;
            do pk <- card.prime k;
            Ok (assign (pi ^ 4 * pk) st))
         st)
    (unsuited, MAX_STRAIGHT_FLUSH + 1).

(** 2) Full House *)
Definition full_house (unsuited : gmap Z Z) : result (gmap Z Z * Z) :=
  for_each backwards_ranks
    (fun i st =>
       do pairranks <- list_remove i backwards_ranks;
       for_each pairranks
         (fun pr st =>
            do pi <- card.prime i;
            do ppr <- card.prime pr;
            Ok (assign (pi ^ 3 * ppr ^ 2) st))
         st)
    (unsuited, MAX_FOUR_OF_A_KIND + 1).

(** 3) Three of a Kind *)
Definition three_of_a_kind (unsuited : gmap Z Z) : result (gmap Z Z * Z) :=
  for_each backwards_ranks
    (fun r st =>
       do kickers <- list_remove r backwards_ranks;
       for_each (combinations kickers 2)
         (fun kickers st =>
            match kickers with
            | [c1; c2] =>
                do pr <- card.prime r;
                do p1 <- card.prime c1;
                do p2 <- card.prime c2;
                Ok (assign (pr ^ 3 * p1 * p2) st)
            | _ => Raise ValueError
            end)
         st)
    (unsuited, MAX_STRAIGHT + 1).

(** 4) Two Pair *)
Definition two_pair (unsuited : gmap Z Z) : result (gmap Z Z * Z) :=
  for_each (combinations backwards_ranks 2)
    (fun tp st =>
       match tp with
       | [pair1; pair2] =>
           do kickers <- list_remove pair1 backwards_ranks;
           do kickers <- list_remove pair2 kickers;
           for_each kickers
             (fun kicker st =>
                do p1 <- card.prime pair1;
                do p2 <- card.prime pair2;
                do pk <- card.prime kicker;
                Ok (assign (p1 ^ 2 * p2 ^ 2 * pk) st))
             st
       | _ => Raise ValueError
       end)
    (unsuited, MAX_THREE_OF_A_KIND + 1).

(** 5) Pair *)
Definition pair (unsuited : gmap Z Z) : result (gmap Z Z * Z) :=
  for_each backwards_ranks
    (fun pairrank st =>
       do kickers <- list_remove pairrank backwards_ranks;
       for_each (combinations kickers 3)
         (fun kickers st =>
            match kickers with
            | [k1; k2; k3] =>
                do pp <- card.prime pairrank;
                do p1 <- card.prime k1;
                do p2 <- card.prime k2;
                do p3 <- card.prime k3;
                Ok (assign (pp ^ 2 * p1 * p2 * p3) st)
            | _ => Raise ValueError
            end)
         st)
    (unsuited, MAX_TWO_PAIR + 1).

Definition build_multiples (self : t) : result t :=
  do '(u, _) <- four_of_a_kind (unsuited self);
  do '(u, _) <- full_house u;
  do '(u, _) <- three_of_a_kind u;
  do '(u, _) <- two_pair u;
  do '(u, _) <- pair u;
  Ok (mk (flush self) u).

Definition build : result t :=
  do self <- build_flushes (mk ∅ ∅);
  build_multiples self.

End LookupTable.


(** ** The draw tables *)

(** A value of a draw-table dictionary: a bare integer or a list. *)
Inductive pyval : Type :=
  | PyInt (z : Z)
  | PyList (l : list Z).

(** [bool(d.get(product))] *)
Definition exist_key (d : gmap Z pyval) (product : Z) : bool :=
  match d !! product with
  | None => false
  | Some (PyInt z) => negb (z =? 0)
  | Some (PyList []) => false
  | Some (PyList (_ :: _)) => true
  end.

(** [if exist_key: d[product].append(rank) else: d[product] = [rank]];
    an integer has no [append]. *)
Definition add_rank (product rank : Z) (d : gmap Z pyval) : result (gmap Z pyval) :=
  if exist_key d product then
    match d !! product with
    | Some (PyList l) => Ok (<[product := PyList (l ++ [rank])]> d)
    | Some (PyInt _) => Raise AttributeError
    | None => Raise KeyError
    end
  else Ok (<[product := PyList [rank]]> d).

(** The loop over the straight windows, shared by [build_flushes] and
    [build_straights] of both draw tables: ten patterns per rank. *)
Definition rank_windows (patterns : list Z) (d : gmap Z pyval) (rank : Z)
  : result (gmap Z pyval * Z * Z) :=
  for_each patterns
    (fun sf '(d, rank, co) =>
       let '(current_cards, product) := card.product_from_rankbits sf in
       do d <- add_rank product rank d;
       if co =? 9 then Ok (d, rank + 1, 0) else Ok (d, rank, co + 1))
    (d, rank, 0).

(** [for f in flushes: ...; self.flush[product] = rank; rank += 1] of the
    draw tables. *)
Definition rank_flushes (flushes : list Z) (d : gmap Z pyval) (rank : Z)
  : gmap Z pyval * Z :=
  fold_left
    (fun '(d, rank) f =>
       let '(current_cards, product) := card.product_from_rankbits f in
       (<[product := PyInt rank]> d, rank + 1))
    flushes (d, rank).

(** [set(flushes) - set(straight_flushes)], listed, sorted and reversed. *)
Definition remove_draws (flushes straight_flushes : list Z) : list Z :=
  let set_dif : gset Z := list_to_set flushes ∖ list_to_set straight_flushes in
  rev (merge_sort Z.le (elements set_dif)).

(** [for i in range(8, -1, -1): for a in sequence: l.append(a << i)] *)
Definition shifted_windows (sequence : list Z) : list Z :=
  flat_map (fun i => map (fun a => Z.shiftl a i) sequence) [8; 7; 6; 5; 4; 3; 2; 1; 0].

(** The locals of [build_multiples]: the dictionary, [rank] and the loop
    variable [i], unbound until a loop binds it. *)
Definition locals : Type := gmap Z pyval * Z * option nat.

Definition set_rank (rank : Z) (st : locals) : locals :=
  let '(u, _, i) := st in (u, rank, i).

(** The body shared by every pass: add [rank] under [product], then
    [rank += 1]. *)
Definition record_rank (product : Z) (st : locals) : result locals :=
  let '(u, rank, i) := st in
  do u <- add_rank product rank u;
  Ok (u, rank + 1, i).

Definition read_i (st : locals) : result nat :=
  match st with
  | (_, _, Some i) => Ok i
  | (_, _, None) => Raise ValueError
  end.

Module LookupTableThreeCards.

Definition MAX_STRAIGHT_FLUSH : Z := 10.
Definition MAX_FOUR_OF_A_KIND : Z := 179.
Definition MAX_FULL_HOUSE : Z := 348.
Definition MAX_FLUSH : Z := 570.
Definition MAX_STRAIGHT : Z := 580.
Definition MAX_THREE_OF_A_KIND : Z := 1022.
Definition MAX_TWO_PAIR : Z := 1464.
Definition MAX_PAIR : Z := 1750.

Record t : Type := mk { flush : gmap Z pyval; unsuited : gmap Z pyval }.

(** The list [straight_flushes] that [build_flushes] assembles. *)
Definition straight_flushes : result (list Z) :=
  do '(sequence, _) <- pull 9 (next_word 7) [7];
  let sequence := rev sequence in
  let straight_flushes := shifted_windows sequence in
  do '(straight_flushes, _) <- pull 5 (next_word 4099) (straight_flushes ++ [4099]);
  do '(straight_flushes, _) <- pull 3 (next_word 7) (straight_flushes ++ [7]);
  Ok straight_flushes.

Definition build_straights (self : t) (straights : list Z) : result t :=
  do '(u, _, _) <- rank_windows straights (unsuited self) (MAX_FLUSH + 1);
  Ok (mk (flush self) u).

Definition build_flushes (self : t) : result t :=
  do straight_flushes <- straight_flushes;
  do '(flushes, _) <- pull 285 (next_word 7) [];
  do '(f, _, _) <- rank_windows straight_flushes (flush self) 1;
  let flushes := remove_draws flushes straight_flushes in
  let '(f, _) := rank_flushes flushes f (MAX_FULL_HOUSE + 1) in
  build_straights (mk f (unsuited self)) straight_flushes.

(** [for i in backwards_ranks: product = card.PRIMES[i]**3; ...] *)
Definition from_trips (st : locals) : result locals :=
  for_each backwards_ranks
    (fun i '(u, rank, _) =>
       do p <- card.prime i;
       record_rank (p ^ 3) (u, rank, Some i))
    st.

(** [for i in backwards_ranks: ...; for k in kickers:
     product = card.PRIMES[i]**2 * card.PRIMES[k]; ...] *)
Definition from_pair (st : locals) : result locals :=
  for_each backwards_ranks
    (fun i '(u, rank, _) =>
       do kickers <- list_remove i backwards_ranks;
       for_each kickers
         (fun k st =>
            do pi <- card.prime i;
            do pk <- card.prime k;
            record_rank (pi ^ 2 * pk) st)
         (u, rank, Some i))
    st.

(** The loop of 4) Two Pairs: it iterates [r] and [k] and reads [i]. *)
Definition two_pairs_from_pair (st : locals) : result locals :=
  for_each backwards_ranks
    (fun r st =>
       do kickers <- list_remove r backwards_ranks;
       for_each kickers
         (fun k st =>
            do i <- read_i st;
            do pi <- card.prime i;
            do pk <- card.prime k;
            record_rank (pi ^ 2 * pk) st)
         st)
    st.

(** [for r in itertools.combinations(backwards_ranks, 3): c1, c2, c3 = r; ...] *)
Definition from_highcard (st : locals) : result locals :=
  for_each (combinations backwards_ranks 3)
    (fun r st =>
       match r with
       | [c1; c2; c3] =>
           do p1 <- card.prime c1;
           do p2 <- card.prime c2;
           do p3 <- card.prime c3;
           record_rank (p1 * p2 * p3) st
       | _ => Raise ValueError
       end)
    st.

(** The passes of [build_multiples], each from the locals it is entered
    with. *)
Definition four_of_a_kind (st : locals) : result locals :=
  do st <- from_trips (set_rank (MAX_STRAIGHT_FLUSH + 1) st);
  from_pair st.

Definition full_house (st : locals) : result locals :=
  do st <- from_trips (set_rank (MAX_FOUR_OF_A_KIND + 1) st);
  from_pair st.

Definition three_of_a_kind (st : locals) : result locals :=
  do st <- from_pair (set_rank (MAX_STRAIGHT + 1) st);
  from_highcard st.

Definition two_pairs (st : locals) : result locals :=
  do st <- two_pairs_from_pair (set_rank (MAX_THREE_OF_A_KIND + 1) st);
  from_highcard st.

Definition one_pair (st : locals) : result locals :=
  from_highcard (set_rank (MAX_TWO_PAIR + 1) st).

Definition build_multiples (self : t) : result t :=
  do st <- four_of_a_kind (unsuited self, 0, None);
  do st <- full_house st;
  do st <- three_of_a_kind st;
  do st <- two_pairs st;
  do '(u, _, _) <- one_pair st;
  Ok (mk (flush self) u).

Definition build : result t :=
  do self <- build_flushes (mk ∅ ∅);
  build_multiples self.

End LookupTableThreeCards.

Module LookupTableFourCards.

Definition MAX_STRAIGHT_FLUSH : Z := 10.
Definition MAX_FOUR_OF_A_KIND : Z := 166.
Definition MAX_FULL_HOUSE : Z := 478.
Definition MAX_FLUSH : Z := 1152.
Definition MAX_STRAIGHT : Z := 1162.
Definition MAX_THREE_OF_A_KIND : Z := 2020.
Definition MAX_TWO_PAIR : Z := 2878.
Definition MAX_PAIR : Z := 3593.

Record t : Type := mk { flush : gmap Z pyval; unsuited : gmap Z pyval }.

Definition straight_flushes : result (list Z) :=
  do '(sequence, _) <- pull 4 (next_word 7) [7];
  let sequence := rev sequence in
  let straight_flushes := shifted_windows sequence in
  do '(straight_flushes, _) <- pull 3 (next_word 4103) (straight_flushes ++ [4103]);
  Ok (straight_flushes ++ [15]).

Definition build_straights (self : t) (straights : list Z) : result t :=
  do '(u, _, _) <- rank_windows straights (unsuited self) (MAX_FLUSH + 1);
  Ok (mk (flush self) u).

Definition build_flushes (self : t) : result t :=
  do straight_flushes <- straight_flushes;
  do '(flushes, _) <- pull 714 (next_word 15) [];
  do '(f, _, _) <- rank_windows straight_flushes (flush self) 1;
  let flushes := remove_draws flushes straight_flushes in
  let '(f, _) := rank_flushes flushes f (MAX_FULL_HOUSE + 1) in
  build_straights (mk f (unsuited self)) straight_flushes.

(** [for i in backwards_ranks: ...; for k in kickers:
     product = card.PRIMES[i] ** 3 * card.PRIMES[k]; ...] *)
Definition from_trips (st : locals) : result locals :=
  for_each backwards_ranks
    (fun i '(u, rank, _) =>
       do kickers <- list_remove i backwards_ranks;
       for_each kickers
         (fun k st =>
            do pi <- card.prime i;
            do pk <- card.prime k;
            record_rank (pi ^ 3 * pk) st)
         (u, rank, Some i))
    st.

(** [... product = card.PRIMES[i] ** 2 * card.PRIMES[k] ** 2; ...] *)
Definition from_two_pairs (st : locals) : result locals :=
  for_each backwards_ranks
    (fun i '(u, rank, _) =>
       do kickers <- list_remove i backwards_ranks;
       for_each kickers
         (fun k st =>
            do pi <- card.prime i;
            do pk <- card.prime k;
            record_rank (pi ^ 2 * pk ^ 2) st)
         (u, rank, Some i))
    st.

(** [for pairrank in backwards_ranks: ...;
     for kickers in itertools.combinations(kickers, 2): ...] *)
Definition from_pair (st : locals) : result locals :=
  for_each backwards_ranks
    (fun pairrank st =>
       do kickers <- list_remove pairrank backwards_ranks;
       for_each (combinations kickers 2)
         (fun kickers st =>
            match kickers with
            | [k1; k2] =>
                do pp <- card.prime pairrank;
                do p1 <- card.prime k1;
                do p2 <- card.prime k2;
                record_rank (pp ^ 2 * p1 * p2) st
            | _ => Raise ValueError
            end)
         st)
    st.

(** [for r in itertools.combinations(backwards_ranks, 4): ...] *)
Definition from_highcard (st : locals) : result locals :=
  for_each (combinations backwards_ranks 4)
    (fun r st =>
       match r with
       | [c1; c2; c3; c4] =>
           do p1 <- card.prime c1;
           do p2 <- card.prime c2;
           do p3 <- card.prime c3;
           do p4 <- card.prime c4;
           record_rank (p1 * p2 * p3 * p4) st
       | _ => Raise ValueError
       end)
    st.

Definition four_of_a_kind (st : locals) : result locals :=
  from_trips (set_rank (MAX_STRAIGHT_FLUSH + 1) st).

Definition full_house (st : locals) : result locals :=
  do st <- from_trips (set_rank (MAX_FOUR_OF_A_KIND + 1) st);
  from_two_pairs st.

Definition three_of_a_kind (st : locals) : result locals :=
  from_pair (set_rank (MAX_STRAIGHT + 1) st).

Definition two_pairs (st : locals) : result locals :=
  from_pair (set_rank (MAX_THREE_OF_A_KIND + 1) st).

Definition one_pair (st : locals) : result locals :=
  from_highcard (set_rank (MAX_TWO_PAIR + 1) st).

Definition build_multiples (self : t) : result t :=
  do st <- four_of_a_kind (unsuited self, 0, None);
  do st <- full_house st;
  do st <- three_of_a_kind st;
  do st <- two_pairs st;
  do '(u, _, _) <- one_pair st;
  Ok (mk (flush self) u).

Definition build : result t :=
  do self <- build_flushes (mk ∅ ∅);
  build_multiples self.

End LookupTableFourCards.

(** ** [OmahaEvaluator] *)

Module OmahaEvaluator.
Section Evaluator.

(** Cards are opaque to the evaluator. *)
Variable Card : Type.

(** [Evaluator._five] of the parent class (treys/evaluator.py, not among
    the sources): the five-card score, an integer rank. *)
Variable _five : list Card -> Z.

(** The scanning loop: [for combo in combos: score = self._five(combo);
    if score < minimum: minimum = score], from
    [minimum = LookupTable.MAX_HIGH_CARD]. *)
Definition best (combos : list (list Card)) : Z :=
  fold_left
    (fun minimum combo =>
       let score := _five combo in
       if score <? minimum then score else minimum)
    combos LookupTable.MAX_HIGH_CARD.

(** Modelled from the spec: [Evaluator._six] and [Evaluator._seven] of the
    parent class (treys/evaluator.py, not among the sources): "evaluate all
    C(n,5) five-card subsets, score each via the Five-Card Rank Table,
    return the minimum rank found". *)
Definition _six (cards : list Card) : Z := best (combinations cards 5).
Definition _seven (cards : list Card) : Z := best (combinations cards 5).

Definition all2cardscombos (cards : list Card) : list (list Card) :=
  combinations (firstn 5 cards) 2.

Definition all5cardscombos (cards : list Card) : list (list Card) :=
  map (fun a => a ++ skipn 5 cards) (all2cardscombos cards).

Definition _eightnineten (cards : list Card) : Z :=
  best (all5cardscombos cards).

(** [self.hand_size_map], as [dict.get]. *)
Definition hand_size_map (size : nat) : option (list Card -> Z) :=
  match size with
  | 5%nat => Some _five
  | 6%nat => Some _six
  | 7%nat => Some _seven
  | 8%nat => Some _eightnineten
  | 9%nat => Some _eightnineten
  | 10%nat => Some _eightnineten
  | _ => None
  end.

(** Modelled from the spec: [Evaluator.evaluate], the entry point of the
    parent class (treys/evaluator.py, not among the sources): it "accepts
    an ordered sequence of cards of length 5-10" and dispatches on the
    length through [hand_size_map]; "hand sizes outside {5,...,10} are
    unsupported and must fail", here with the [KeyError] of the missing
    dictionary key. *)
Definition evaluate (cards : list Card) : result Z :=
  match hand_size_map (List.length cards) with
  | Some handler => Ok (handler cards)
  | None => Raise KeyError
  end.

(** The combinations a supported call hands to [_five]. *)
Definition scored (cards : list Card) : list (list Card) :=
  match List.length cards with
  | 5%nat => [cards]
  | 6%nat | 7%nat => combinations cards 5
  | 8%nat | 9%nat | 10%nat => all5cardscombos cards
  | _ => []
  end.

End Evaluator.
End OmahaEvaluator.

(** ** Five-card hands *)

Inductive suit : Type := Spades | Hearts | Diamonds | Clubs.

Record playing_card : Type := { rank : nat; card_suit : suit }.

Definition suit_eqb (a b : suit) : bool :=
  match a, b with
  | Spades, Spades | Hearts, Hearts | Diamonds, Diamonds | Clubs, Clubs => true
  | _, _ => false
  end.

(** All the cards of one suit. *)
Definition same_suit (h : list playing_card) : bool :=
  match h with
  | [] => true
  | c :: t => forallb (fun d => suit_eqb (card_suit d) (card_suit c)) t
  end.

(** The prime product of a list of ranks. *)
Definition prime_product (rs : list nat) : Z :=
  fold_left (fun product r => product * nth r card.PRIMES 1) rs 1.

(** Modelled from the spec: the five-card classification of the evaluator
    (treys/evaluator.py, not among the sources): the prime product of the
    hand is looked up in [flush] "when all 5 cards share a suit", in
    [unsuited] otherwise. *)
Definition table_rank (tbl : LookupTable.t) (suited : bool) (rs : list nat) : option Z :=
  if suited then LookupTable.flush tbl !! prime_product rs
  else LookupTable.unsuited tbl !! prime_product rs.

Definition five_card_rank (tbl : LookupTable.t) (h : list playing_card) : option Z :=
  table_rank tbl (same_suit h) (map rank h).

(** Modelled from the spec: the rank classification of the evaluator
    (treys/evaluator.py, not among the sources), "given a final integer
    rank, map it to one of the 9 named hand categories using the boundary
    constants": the class of the first boundary the rank does not exceed. *)
Definition get_rank_class (hr : Z) : option Z :=
  if hr <? 0 then None
  else
    match find (fun '(boundary, _) => hr <=? boundary) LookupTable.MAX_TO_RANK_CLASS with
    | Some (_, class) => Some class
    | None => None
    end.

(** The poker category of a hand, read off its ranks and suits. *)
Definition count_rank (r : nat) (rs : list nat) : nat :=
  List.length (List.filter (Nat.eqb r) rs).

Definition has_count (n : nat) (rs : list nat) : bool :=
  existsb (fun r => Nat.eqb (count_rank r rs) n) (seq 0 13).

Definition pairs (rs : list nat) : nat :=
  List.length (List.filter (fun r => Nat.eqb (count_rank r rs) 2) (seq 0 13)).

Definition distinct (rs : list nat) : bool :=
  forallb (fun r => Nat.leb (count_rank r rs) 1) (seq 0 13).

Definition is_straight (rs : list nat) : bool :=
  distinct rs
  && (Nat.eqb (list_max rs - fold_right Nat.min 12%nat rs) 4
      || forallb (fun r => existsb (Nat.eqb r) [12; 0; 1; 2; 3]%nat) rs).

(** The class numbers are those of [LookupTable.RANK_CLASS_TO_STRING]. *)
Definition category (suited : bool) (rs : list nat) : Z :=
  if suited && is_straight rs then 1
  else if has_count 4 rs then 2
  else if has_count 3 rs && has_count 2 rs then 3
  else if suited then 4
  else if is_straight rs then 5
  else if has_count 3 rs then 6
  else if Nat.eqb (pairs rs) 2 then 7
  else if Nat.eqb (pairs rs) 1 then 8
  else 9.

Definition hand_category (h : list playing_card) : Z :=
  category (same_suit h) (map rank h).

(** Five different cards of the deck. *)
Definition valid_hand (h : list playing_card) : Prop :=
  List.length h = 5%nat /\ List.NoDup h /\ Forall (fun c => (rank c < 13)%nat) h.

(** ** Notions the statements use *)

(** A word as a high part above [n] low bits. *)
Definition glue (n hi lo : Z) : Z := 2 ^ n * hi + lo.

(** [ws] continues [prev]: every element comes from its predecessor by the
    bit identity, is above it, has [k] one bits, and no integer between the
    two has. *)
Fixpoint successive (k : nat) (prev : Z) (ws : list Z) : Prop :=
  match ws with
  | [] => True
  | v :: ws' =>
      bit_identity prev = Ok v /\ prev < v /\ popcount v = k
      /\ (forall x, prev < x < v -> popcount x <> k)
      /\ successive k v ws'
  end.

(** The exhaustive check behind the five-card theorem: every shape of hand
    ([suited] or not, five ranks) that a deck allows is in the table, with a
    rank of [1..7462] whose class is the category of the shape. *)
Definition check_shape (tbl : LookupTable.t) (suited : bool) (rs : list nat) : bool :=
  match table_rank tbl suited rs with
  | Some r =>
      (1 <=? r) && (r <=? 7462)
      && match get_rank_class r with
         | Some c => c =? category suited rs
         | None => false
         end
  | None => false
  end.

Definition shape_ok (suited : bool) (rs : list nat) : bool :=
  if suited then distinct rs else negb (has_count 5 rs).

Definition check_all (tbl : LookupTable.t) : bool :=
  forallb (fun r1 => forallb (fun r2 => forallb (fun r3 =>
  forallb (fun r4 => forallb (fun r5 => forallb (fun s =>
    implb (shape_ok s [r1; r2; r3; r4; r5])
          (check_shape tbl s [r1; r2; r3; r4; r5]))
  [true; false]) (seq 0 13)) (seq 0 13)) (seq 0 13)) (seq 0 13)) (seq 0 13).

(** The integer a generator computes its next value from. *)
Definition held (gen : generator) : Z :=
  match gen with
  | Created bits => bits
  | Suspended w => w
  end.

(** A boolean check of the table [build] returns; false if it raised. *)
Definition holds_after_build (check : LookupTable.t -> bool) : bool :=
  match LookupTable.build with
  | Ok tbl => check tbl
  | Raise _ => false
  end.

(** Number of keys of the two dictionaries whose rank is in [(lo, hi]]. *)
Definition entries_between (tbl : LookupTable.t) (lo hi : Z) : nat :=
  List.length
    (List.filter (fun '(_, r) => (lo <? r) && (r <=? hi))
       (map_to_list (LookupTable.flush tbl) ++ map_to_list (LookupTable.unsuited tbl))).

(** The counter [rank] as each pass of [LookupTable.build] leaves it, the
    passes run as [build] runs them and listed in the order of the classes. *)
Definition final_counters : result (list Z) :=
  do flushes <- LookupTable.flushes;
  let '(f, c1) := LookupTable.rank_patterns LookupTable.straight_flushes ∅ 1 in
  let '(f, c4) := LookupTable.rank_patterns flushes f (LookupTable.MAX_FULL_HOUSE + 1) in
  let '(u, c5) :=
    LookupTable.rank_patterns LookupTable.straight_flushes ∅ (LookupTable.MAX_FLUSH + 1) in
  let '(u, c9) := LookupTable.rank_patterns flushes u (LookupTable.MAX_PAIR + 1) in
  do '(u, c2) <- LookupTable.four_of_a_kind u;
  do '(u, c3) <- LookupTable.full_house u;
  do '(u, c6) <- LookupTable.three_of_a_kind u;
  do '(u, c7) <- LookupTable.two_pair u;
  do '(u, c8) <- LookupTable.pair u;
  Ok [c1; c2; c3; c4; c5; c6; c7; c8; c9].

(** Four of rank [i] with kicker [k]: the key and, in closed form, the rank
    the nested descending loops give it. *)
Definition quads_key (i k : nat) : Z := nth i card.PRIMES 1 ^ 4 * nth k card.PRIMES 1.

Definition quads_rank (i k : nat) : Z :=
  11 + 12 * (12 - Z.of_nat i)
  + (if Nat.ltb k i then 11 - Z.of_nat k else 12 - Z.of_nat k).

Definition check_quads (tbl : LookupTable.t) : bool :=
  forallb (fun i => forallb (fun k =>
    Nat.eqb i k
    || match LookupTable.unsuited tbl !! quads_key i k with
       | Some r => r =? quads_rank i k
       | None => false
       end)
  (seq 0 13)) (seq 0 13).

(** [a] beats [b] among four-of-a-kind hands: the higher quad rank, then the
    higher kicker. *)
Definition quads_beat (a b : nat * nat) : Prop :=
  (fst b < fst a)%nat \/ (fst a = fst b /\ (snd b < snd a)%nat).

(** The royal flush in spades. *)
Definition royal_flush : list playing_card :=
  [ {| rank := 12; card_suit := Spades |}; {| rank := 11; card_suit := Spades |};
    {| rank := 10; card_suit := Spades |}; {| rank := 9; card_suit := Spades |};
    {| rank := 8; card_suit := Spades |} ].


(** A boolean check of a result; false if it raised. *)
Definition holds {A : Type} (r : result A) (check : A -> bool) : bool :=
  match r with
  | Ok a => check a
  | Raise _ => false
  end.

(** The locals of [LookupTableThreeCards.build_multiples] when it reaches
    4) Two Pairs, in the run of [build]. *)
Definition locals_before_two_pairs : result locals :=
  do self <- LookupTableThreeCards.build_flushes (LookupTableThreeCards.mk ∅ ∅);
  do st <- LookupTableThreeCards.four_of_a_kind (LookupTableThreeCards.unsuited self, 0, None);
  do st <- LookupTableThreeCards.full_house st;
  LookupTableThreeCards.three_of_a_kind st.

(** A pair of rank [r] with kicker [k], as a three-card signature. *)
Definition pair_key (r k : nat) : Z := nth r card.PRIMES 1 ^ 2 * nth k card.PRIMES 1.

(** [n] binomial [k]. *)
Fixpoint binomial (n k : nat) : nat :=
  match k, n with
  | O, _ => 1
  | S _, O => 0
  | S k', S n' => binomial n' k' + binomial n' k
  end.




(** ** Notions of the further properties *)

(** The ranks the two dictionaries hold. *)
Definition table_values (tbl : LookupTable.t) : list Z :=
  map snd (map_to_list (LookupTable.flush tbl))
  ++ map snd (map_to_list (LookupTable.unsuited tbl)).

(** [lo; lo + 1; ...], [n] of them. *)
Fixpoint count_from (lo : Z) (n : nat) : list Z :=
  match n with
  | O => []
  | S n' => lo :: count_from (lo + 1) n'
  end.

(** Three of rank [i] with a pair of rank [pr]: the key and, in closed form,
    its rank. *)
Definition full_house_key (i pr : nat) : Z :=
  nth i card.PRIMES 1 ^ 3 * nth pr card.PRIMES 1 ^ 2.

Definition full_house_rank (i pr : nat) : Z :=
  167 + 12 * (12 - Z.of_nat i)
  + (if Nat.ltb pr i then 11 - Z.of_nat pr else 12 - Z.of_nat pr).

Definition check_full_houses (tbl : LookupTable.t) : bool :=
  forallb (fun i => forallb (fun pr =>
    Nat.eqb i pr
    || match LookupTable.unsuited tbl !! full_house_key i pr with
       | Some r => r =? full_house_rank i pr
       | None => false
       end)
  (seq 0 13)) (seq 0 13).

(** The rank [unsuited] gives the key of a [flush] entry of rank [r]. *)
Definition unsuited_twin (r : Z) : Z :=
  if r <=? LookupTable.MAX_STRAIGHT_FLUSH then r + LookupTable.MAX_FLUSH
  else r + (LookupTable.MAX_PAIR - LookupTable.MAX_FULL_HOUSE).

Definition check_twins (tbl : LookupTable.t) : bool :=
  forallb
    (fun '(k, r) =>
       match LookupTable.unsuited tbl !! k with
       | Some r' => r' =? unsuited_twin r
       | None => false
       end)
    (map_to_list (LookupTable.flush tbl)).

Definition check_values (tbl : LookupTable.t) : bool :=
  bool_decide (merge_sort Z.le (table_values tbl) = count_from 1 (Z.to_nat 7462)).

(** The ranks listed under a signature of a draw table. *)
Definition ranks_at (d : gmap Z pyval) (k : Z) : list Z :=
  match d !! k with
  | Some (PyList l) => l
  | _ => []
  end.

(** A dictionary all of whose values are non-empty lists. *)
Definition only_lists (d : gmap Z pyval) : Prop :=
  forall k v, d !! k = Some v -> exists x l, v = PyList (x :: l).

(** [d'] has every list of [d], possibly longer. *)
Definition extends (d d' : gmap Z pyval) : Prop :=
  forall k, exists more, ranks_at d' k = ranks_at d k ++ more.

(** The dictionary and the variable [i] among the locals. *)
Definition dict_of (st : locals) : gmap Z pyval := fst (fst st).

Definition i_of (st : locals) : option nat := snd st.

(** The locals hold a dictionary of non-empty lists that extends [d0]. *)
Definition appended (d0 : gmap Z pyval) (st : locals) : Prop :=
  only_lists (dict_of st) /\ extends d0 (dict_of st).

(** The same, with [i] bound to a rank. *)
Definition appended_bound (d0 : gmap Z pyval) (st : locals) : Prop :=
  appended d0 st /\ exists i, i_of st = Some i /\ (i < 13)%nat.

(** The bare integers a dictionary holds, sorted. *)
Definition integers_of (d : gmap Z pyval) : list Z :=
  merge_sort Z.le
    (omap (fun '(_, v) => match v with PyInt z => Some z | PyList _ => None end)
       (map_to_list d)).

(** Every three ranks are a signature of [unsuited], and of [flush] when
    they differ. *)
Definition check_three_cards (t : LookupTableThreeCards.t) : bool :=
  forallb (fun r1 => forallb (fun r2 => forallb (fun r3 =>
    let product := prime_product [r1; r2; r3] in
    exist_key (LookupTableThreeCards.unsuited t) product
    && implb (distinct [r1; r2; r3])
             (match LookupTableThreeCards.flush t !! product with
              | Some _ => true
              | None => false
              end))
  (seq 0 13)) (seq 0 13)) (seq 0 13).

(** Every four ranks are a signature of [unsuited], but four of one rank. *)
Definition check_four_cards (t : LookupTableFourCards.t) : bool :=
  forallb (fun r1 => forallb (fun r2 => forallb (fun r3 => forallb (fun r4 =>
    let product := prime_product [r1; r2; r3; r4] in
    if has_count 4 [r1; r2; r3; r4]
    then match LookupTableFourCards.unsuited t !! product with
         | Some _ => false
         | None => true
         end
    else exist_key (LookupTableFourCards.unsuited t) product)
  (seq 0 13)) (seq 0 13)) (seq 0 13)) (seq 0 13).

(** ** [OmahaEvaluator] over a five-card score that can raise *)

Module OmahaEvaluatorRaising.
Section Evaluator.

Variable Card : Type.

(** [Evaluator._five] of the parent class (treys/evaluator.py, not among
    the sources), as a call that returns a rank or raises. *)
Variable _five : list Card -> result Z.

(** The scanning loop of [_eightnineten]; an exception of
    [self._five(combo)] leaves the loop and the method. *)
Definition best (combos : list (list Card)) : result Z :=
  for_each combos
    (fun combo minimum =>
       do score <- _five combo;
       Ok (if score <? minimum then score else minimum))
    LookupTable.MAX_HIGH_CARD.

(** Modelled from the spec: [Evaluator._six] and [Evaluator._seven] of the
    parent class (treys/evaluator.py, not among the sources): "evaluate all
    C(n,5) five-card subsets, score each via the Five-Card Rank Table,
    return the minimum rank found". *)
Definition _six (cards : list Card) : result Z := best (combinations cards 5).
Definition _seven (cards : list Card) : result Z := best (combinations cards 5).

Definition _eightnineten (cards : list Card) : result Z :=
  best (OmahaEvaluator.all5cardscombos Card cards).

(** [self.hand_size_map], as [dict.get]. *)
Definition hand_size_map (size : nat) : option (list Card -> result Z) :=
  match size with
  | 5%nat => Some _five
  | 6%nat => Some _six
  | 7%nat => Some _seven
  | 8%nat => Some _eightnineten
  | 9%nat => Some _eightnineten
  | 10%nat => Some _eightnineten
  | _ => None
  end.

(** Modelled from the spec: [Evaluator.evaluate], the entry point of the
    parent class (treys/evaluator.py, not among the sources): it "accepts
    an ordered sequence of cards of length 5-10" and dispatches on the
    length through [hand_size_map]; "hand sizes outside {5,...,10} are
    unsupported and must fail", here with the [KeyError] of the missing
    dictionary key. *)
Definition evaluate (cards : list Card) : result Z :=
  match hand_size_map (List.length cards) with
  | Some handler => handler cards
  | None => Raise KeyError
  end.

End Evaluator.
End OmahaEvaluatorRaising.

(** Modelled from the spec: [Evaluator._five] of the parent class
    (treys/evaluator.py, not among the sources), "for exactly 5 cards:
    delegate directly to the Five-Card Rank Table classification (suited
    vs. unsuited lookup)": the rank under the prime product of the cards
    it is given, the [KeyError] of the dictionary when the product is not
    a key. *)
Definition table_five (tbl : LookupTable.t) (cards : list playing_card) : result Z :=
  match five_card_rank tbl cards with
  | Some r => Ok r
  | None => Raise KeyError
  end.

(** The prime product of the cards is a key of neither dictionary. *)
Definition unranked (tbl : LookupTable.t) (cards : list playing_card) : Prop :=
  LookupTable.flush tbl !! prime_product (map rank cards) = None
  /\ LookupTable.unsuited tbl !! prime_product (map rank cards) = None.

(** [r] is the least of the ranks of [combos] in the table. *)
Definition least_rank (tbl : LookupTable.t) (r : Z) (combos : list (list playing_card))
  : Prop :=
  Exists (fun combo => table_five tbl combo = Ok r) combos
  /\ Forall (fun combo => exists s, table_five tbl combo = Ok s /\ r <= s) combos.

(** Different cards of the deck. *)
Definition deck_cards (cards : list playing_card) : Prop :=
  List.NoDup cards /\ Forall (fun c => (rank c < 13)%nat) cards.

(** An Omaha hand at the flop, the turn and the river: the five cards of
    the player, A-K-Q-J-T, then the board, 9-8-7, 6 and 5, in mixed suits. *)
Definition eight_cards : list playing_card :=
  [ {| rank := 12; card_suit := Spades |}; {| rank := 11; card_suit := Hearts |};
    {| rank := 10; card_suit := Diamonds |}; {| rank := 9; card_suit := Clubs |};
    {| rank := 8; card_suit := Spades |};
    {| rank := 7; card_suit := Hearts |}; {| rank := 6; card_suit := Diamonds |};
    {| rank := 5; card_suit := Clubs |} ].

Definition nine_cards : list playing_card :=
  eight_cards ++ [ {| rank := 4; card_suit := Spades |} ].

Definition ten_cards : list playing_card :=
  nine_cards ++ [ {| rank := 3; card_suit := Hearts |} ].

(** * Properties *)

(** ** Words as a high part glued on [n] low bits *)

Lemma glue_div n hi lo : 0 <= n -> 0 <= lo < 2 ^ n -> glue n hi lo / 2 ^ n = hi.
Proof.
  intros Hn Hlo. unfold glue.
  rewrite Z.mul_comm, Z.div_add_l by lia. rewrite Z.div_small by lia. lia.
Qed.

Lemma glue_mod n hi lo : 0 <= n -> 0 <= lo < 2 ^ n -> glue n hi lo mod 2 ^ n = lo.
Proof.
  intros Hn Hlo. unfold glue.
  rewrite Z.add_comm, Z.mul_comm, Z.mod_add by lia. apply Z.mod_small; lia.
Qed.

Lemma testbit_glue n hi lo i :
  0 <= n -> 0 <= lo < 2 ^ n -> 0 <= i ->
  Z.testbit (glue n hi lo) i = if i <? n then Z.testbit lo i else Z.testbit hi (i - n).
Proof.
  intros Hn Hlo Hi. destruct (Z.ltb_spec i n) as [Hlt|Hge].
  - rewrite <- (Z.mod_pow2_bits_low (glue n hi lo) n i) by lia.
    now rewrite glue_mod.
  - rewrite <- (glue_div n hi lo Hn Hlo) at 2.
    rewrite Z.div_pow2_bits by lia. f_equal. lia.
Qed.

Lemma lor_range n r s : 0 <= n -> 0 <= r < 2 ^ n -> 0 <= s < 2 ^ n -> 0 <= Z.lor r s < 2 ^ n.
Proof.
  intros Hn Hr Hs.
  assert (Hnn : 0 <= Z.lor r s) by (apply Z.lor_nonneg; lia).
  split; [exact Hnn|].
  assert (Hp : 0 < 2 ^ n) by (apply Z.pow_pos_nonneg; lia).
  assert (Hq : Z.lor r s / 2 ^ n = 0).
  { rewrite <- Z.shiftr_div_pow2, Z.shiftr_lor, !Z.shiftr_div_pow2 by lia.
    rewrite !Z.div_small by lia. reflexivity. }
  apply Z.div_small_iff in Hq; lia.
Qed.

Lemma land_range n r s : 0 <= n -> 0 <= r < 2 ^ n -> 0 <= s < 2 ^ n -> 0 <= Z.land r s < 2 ^ n.
Proof.
  intros Hn Hr Hs.
  assert (Hnn : 0 <= Z.land r s) by (apply Z.land_nonneg; lia).
  split; [exact Hnn|].
  assert (Hp : 0 < 2 ^ n) by (apply Z.pow_pos_nonneg; lia).
  assert (Hq : Z.land r s / 2 ^ n = 0).
  { rewrite <- Z.shiftr_div_pow2, Z.shiftr_land, !Z.shiftr_div_pow2 by lia.
    rewrite !Z.div_small by lia. reflexivity. }
  apply Z.div_small_iff in Hq; lia.
Qed.

Lemma lor_glue n x y r s :
  0 <= n -> 0 <= r < 2 ^ n -> 0 <= s < 2 ^ n ->
  Z.lor (glue n x r) (glue n y s) = glue n (Z.lor x y) (Z.lor r s).
Proof.
  intros Hn Hr Hs. apply Z.bits_inj'. intros i Hi.
  rewrite Z.lor_spec, !testbit_glue by (auto using lor_range).
  destruct (i <? n); now rewrite Z.lor_spec.
Qed.

Lemma land_glue n x y r s :
  0 <= n -> 0 <= r < 2 ^ n -> 0 <= s < 2 ^ n ->
  Z.land (glue n x r) (glue n y s) = glue n (Z.land x y) (Z.land r s).
Proof.
  intros Hn Hr Hs. apply Z.bits_inj'. intros i Hi.
  rewrite Z.land_spec, !testbit_glue by (auto using land_range).
  destruct (i <? n); now rewrite Z.land_spec.
Qed.
Lemma pow2_pos n : 0 <= n -> 0 < 2 ^ n.
Proof. intros. apply Z.pow_pos_nonneg; lia. Qed.

Lemma odd_decomp_pos (p : positive) :
  exists a k, 0 <= a /\ 0 <= k /\ Z.pos p = 2 ^ a * (2 * k + 1).
Proof.
  induction p as [p IH|p IH|].
  - exists 0, (Z.pos p). repeat split; try lia.
  - destruct IH as (a & k & Ha & Hk & E).
    exists (a + 1), k. repeat split; try lia.
    rewrite Z.pow_add_r by lia. rewrite Pos2Z.inj_xO, E. ring.
  - exists 0, 0. repeat split; lia.
Qed.

Lemma odd_decomp (z : Z) :
  z <> 0 -> exists a k, 0 <= a /\ z = 2 ^ a * (2 * k + 1).
Proof.
  intros Hz. destruct z as [|p|p]; [congruence| |].
  - destruct (odd_decomp_pos p) as (a & k & Ha & _ & E). eauto.
  - destruct (odd_decomp_pos p) as (a & k & Ha & _ & E).
    exists a, (- k - 1). split; [exact Ha|].
    change (Z.neg p) with (- Z.pos p). rewrite E. ring.
Qed.

Lemma land_odd_opp k : Z.land (2 * k + 1) (- (2 * k + 1)) = 1.
Proof.
  replace (2 * k + 1) with (glue 1 k 1) by (unfold glue; first [ring | lia]).
  replace (- glue 1 k 1) with (glue 1 (Z.lnot k) 1)
    by (unfold glue, Z.lnot; lia).
  rewrite land_glue by lia.
  rewrite Z.land_lnot_diag. reflexivity.
Qed.

Lemma lowest_set_bit a k :
  0 <= a -> Z.land (2 ^ a * (2 * k + 1)) (- (2 ^ a * (2 * k + 1))) = 2 ^ a.
Proof.
  intros Ha. pose proof (pow2_pos a Ha).
  replace (2 ^ a * (2 * k + 1)) with (glue a (2 * k + 1) 0) by (unfold glue; first [ring | lia]).
  replace (- glue a (2 * k + 1) 0) with (glue a (- (2 * k + 1)) 0)
    by (unfold glue; first [ring | lia]).
  rewrite land_glue by lia.
  rewrite land_odd_opp. unfold glue. change (Z.land 0 0) with 0. ring.
Qed.

Lemma lor_pred_odd k : Z.lor (2 * k + 1) (2 * k) = 2 * k + 1.
Proof.
  replace (2 * k + 1) with (glue 1 k 1) by (unfold glue; first [ring | lia]).
  replace (2 * k) with (glue 1 k 0) by (unfold glue; first [ring | lia]).
  rewrite lor_glue by lia. now rewrite Z.lor_diag.
Qed.

Lemma fill_trailing_zeros a k :
  0 <= a ->
  Z.lor (2 ^ a * (2 * k + 1)) (2 ^ a * (2 * k + 1) - 1)
  = 2 ^ a * (2 * k + 1) + (2 ^ a - 1).
Proof.
  intros Ha. pose proof (pow2_pos a Ha).
  replace (2 ^ a * (2 * k + 1) - 1) with (glue a (2 * k) (2 ^ a - 1))
    by (unfold glue; first [ring | lia]).
  replace (2 ^ a * (2 * k + 1)) with (glue a (2 * k + 1) 0) at 1
    by (unfold glue; first [ring | lia]).
  rewrite lor_glue by lia.
  rewrite lor_pred_odd, Z.lor_0_l. unfold glue. lia.
Qed.

Lemma lor_below n x y :
  0 <= n -> 0 <= y < 2 ^ n -> Z.lor (2 ^ n * x) y = 2 ^ n * x + y.
Proof.
  intros Hn Hy. pose proof (pow2_pos n Hn).
  replace (2 ^ n * x) with (glue n x 0) by (unfold glue; first [ring | lia]).
  replace y with (glue n 0 y) at 1 by (unfold glue; first [ring | lia]).
  rewrite lor_glue by lia.
  rewrite Z.lor_0_r, Z.lor_0_l. unfold glue. lia.
Qed.

(** The identity in closed form: [w] ends in [a] zeros below a run of
    [c + 1] ones; the run's top one moves up and the rest drop to the
    bottom. *)
Lemma bit_identity_closed a c k j :
  0 <= a -> 0 <= c -> k + 1 = 2 ^ c * (2 * j + 1) ->
  bit_identity (2 ^ a * (2 * k + 1))
  = Ok (2 ^ (a + c + 1) * (2 * j + 1) + (2 ^ c - 1)).
Proof.
  intros Ha Hc Hk. unfold bit_identity.
  pose proof (pow2_pos a Ha) as Pa. pose proof (pow2_pos c Hc) as Pc.
  rewrite lowest_set_bit by assumption.
  destruct (Z.eqb_spec (2 ^ a) 0) as [E|_]; [lia|].
  rewrite fill_trailing_zeros by assumption.
  assert (Et : 2 ^ a * (2 * k + 1) + (2 ^ a - 1) + 1 = 2 ^ (a + c + 1) * (2 * j + 1)).
  { replace (a + c + 1) with (a + 1 + c) by lia.
    rewrite !Z.pow_add_r by lia. change (2 ^ 1) with 2. 
    transitivity (2 ^ a * 2 * (k + 1)); [ring|]. rewrite Hk. ring. }
  rewrite Et. rewrite lowest_set_bit by lia.
  replace (a + c + 1) with (c + 1 + a) at 2 by lia.
  rewrite Z.pow_add_r with (c := a) by lia.
  rewrite (Z.div_mul (2 ^ (c + 1)) (2 ^ a)) by lia.
  rewrite Z.shiftr_div_pow2 by lia.
  rewrite (Z.pow_add_r 2 c 1) by lia.
  rewrite Z.div_mul by (change (2 ^ 1) with 2; lia).
  f_equal. apply lor_below; [lia|].
  replace (a + c + 1) with (c + (a + 1)) by lia.
  rewrite Z.pow_add_r by lia.
  pose proof (pow2_pos (a + 1) ltac:(lia)). nia.
Qed.

Lemma bit_identity_neg_pow2 a :
  0 <= a -> bit_identity (- 2 ^ a) = Ok (-1).
Proof.
  intros Ha. pose proof (pow2_pos a Ha) as Pa. unfold bit_identity.
  replace (- 2 ^ a) with (2 ^ a * (2 * (-1) + 1)) by ring.
  rewrite lowest_set_bit by assumption.
  destruct (Z.eqb_spec (2 ^ a) 0) as [E|_]; [lia|].
  rewrite fill_trailing_zeros by assumption.
  replace (2 ^ a * (2 * -1 + 1) + (2 ^ a - 1) + 1) with 0 by ring.
  reflexivity.
Qed.

Lemma bit_identity_zero : bit_identity 0 = Raise ZeroDivisionError.
Proof. reflexivity. Qed.

Lemma popcount_double x : 0 <= x -> popcount (2 * x) = popcount x.
Proof. destruct x; simpl; intros; try reflexivity; lia. Qed.

Lemma popcount_succ_double x : 0 <= x -> popcount (2 * x + 1) = S (popcount x).
Proof. destruct x; simpl; intros; try reflexivity; lia. Qed.

Lemma popcount_glue n :
  0 <= n -> forall hi lo, 0 <= hi -> 0 <= lo < 2 ^ n ->
  popcount (2 ^ n * hi + lo) = (popcount hi + popcount lo)%nat.
Proof.
  intros Hn. pattern n. apply natlike_ind; [| |exact Hn]; clear n Hn.
  - intros hi lo Hhi Hlo. change (2 ^ 0) with 1 in *.
    assert (lo = 0) as -> by lia. rewrite Z.add_0_r, Z.mul_1_l. simpl. lia.
  - intros n Hn IH hi lo Hhi Hlo.
    rewrite Z.pow_succ_r in * by assumption.
    pose proof (Z.div_mod lo 2 ltac:(lia)) as E.
    pose proof (Z.mod_pos_bound lo 2 ltac:(lia)) as B.
    set (q := lo / 2) in *. set (b := lo mod 2) in *.
    assert (Hq : 0 <= q < 2 ^ n) by lia.
    assert (Hb : b = 0 \/ b = 1) by lia.
    destruct Hb as [Hb|Hb]; rewrite Hb in E; rewrite E.
    + replace (2 * 2 ^ n * hi + (2 * q + 0)) with (2 * (2 ^ n * hi + q)) by ring.
      rewrite Z.add_0_r.
      assert (0 <= 2 ^ n * hi + q) by nia.
      rewrite !popcount_double by lia. now apply IH.
    + replace (2 * 2 ^ n * hi + (2 * q + 1)) with (2 * (2 ^ n * hi + q) + 1) by ring.
      assert (0 <= 2 ^ n * hi + q) by nia.
      rewrite !popcount_succ_double by lia. rewrite IH by assumption. lia.
Qed.

Lemma popcount_ones n : 0 <= n -> popcount (2 ^ n - 1) = Z.to_nat n.
Proof.
  intros Hn. pattern n. apply natlike_ind; [| |exact Hn]; clear n Hn.
  - reflexivity.
  - intros n Hn IH. rewrite Z.pow_succ_r by assumption.
    replace (2 * 2 ^ n - 1) with (2 * (2 ^ n - 1) + 1) by ring.
    pose proof (pow2_pos n Hn).
    rewrite popcount_succ_double by lia. rewrite IH. lia.
Qed.

Lemma popcount_lower_pos p : 2 ^ Z.of_nat (pos_popcount p) - 1 <= Z.pos p.
Proof.
  induction p as [q IH|q IH|]; simpl pos_popcount.
  - rewrite Nat2Z.inj_succ, Z.pow_succ_r by lia. lia.
  - lia.
  - simpl. lia.
Qed.

Lemma popcount_lower x : 0 <= x -> 2 ^ Z.of_nat (popcount x) - 1 <= x.
Proof.
  destruct x as [|p|p]; intros; [simpl; lia | apply popcount_lower_pos | lia].
Qed.

Lemma popcount_positive x : 0 < x -> (0 < popcount x)%nat.
Proof.
  destruct x as [|p|p]; intros H; try lia. simpl.
  induction p; simpl; lia.
Qed.

Lemma popcount_below n x :
  0 <= n -> 0 <= x < 2 ^ n - 1 -> (popcount x < Z.to_nat n)%nat.
Proof.
  intros Hn Hx. pose proof (popcount_lower x ltac:(lia)) as L.
  assert (2 ^ Z.of_nat (popcount x) < 2 ^ n) as Hlt by lia.
  apply Z.pow_lt_mono_r_iff in Hlt; lia.
Qed.

(** Shape of a positive word: [a] trailing zeros, then [c + 1] ones, then a
    zero, then the bits of [j]. *)
Lemma word_shape w :
  0 < w -> exists a c j, 0 <= a /\ 0 <= c /\ 0 <= j /\
    w = 2 ^ (a + c + 1) * (2 * j + 1) - 2 ^ a /\
    bit_identity w = Ok (2 ^ (a + c + 1) * (2 * j + 1) + (2 ^ c - 1)).
Proof.
  intros Hw. destruct w as [|p|p]; try lia.
  destruct (odd_decomp_pos p) as (a & k & Ha & Hk & E).
  destruct (odd_decomp_pos (Z.to_pos (k + 1))) as (c & j & Hc & Hj & E').
  rewrite Z2Pos.id in E' by lia.
  exists a, c, j. repeat split; try assumption.
  - rewrite E. replace (a + c + 1) with (a + (c + 1)) by lia.
    rewrite Z.pow_add_r, Z.pow_add_r by lia. change (2 ^ 1) with 2.
    transitivity (2 ^ a * (2 * (k + 1) - 1)); [ring|]. rewrite E'. generalize (2 ^ a) (2 ^ c). intros; ring.
  - rewrite E. now apply bit_identity_closed.
Qed.

Lemma popcount_shape_seed a c j :
  0 <= a -> 0 <= c -> 0 <= j ->
  popcount (2 ^ (a + c + 1) * (2 * j + 1) - 2 ^ a) = (popcount j + Z.to_nat c + 1)%nat.
Proof.
  intros Ha Hc Hj.
  pose proof (pow2_pos a Ha) as Pa. pose proof (pow2_pos (c + 1) ltac:(lia)) as Pc.
  replace (2 ^ (a + c + 1) * (2 * j + 1) - 2 ^ a)
    with (2 ^ a * (2 ^ (c + 1) * (2 * j) + (2 ^ (c + 1) - 1)) + 0).
  2:{ replace (a + c + 1) with (a + (c + 1)) by lia.
      rewrite (Z.pow_add_r 2 a (c + 1)) by lia. ring. }
  rewrite popcount_glue by nia.
  rewrite popcount_glue by lia.
  rewrite popcount_double, popcount_ones by lia. simpl. lia.
Qed.

Lemma popcount_shape_next a c j :
  0 <= a -> 0 <= c -> 0 <= j ->
  popcount (2 ^ (a + c + 1) * (2 * j + 1) + (2 ^ c - 1)) = (popcount j + Z.to_nat c + 1)%nat.
Proof.
  intros Ha Hc Hj.
  pose proof (pow2_pos c Hc) as Pc. pose proof (pow2_pos (a + 1) ltac:(lia)) as Pa.
  assert (2 ^ (a + c + 1) = 2 ^ c * 2 ^ (a + 1)) as E
    by (rewrite <- Z.pow_add_r by lia; f_equal; lia).
  rewrite popcount_glue by nia.
  rewrite popcount_succ_double, popcount_ones by lia. lia.
Qed.

Lemma nothing_between a c j x :
  0 <= a -> 0 <= c -> 0 <= j ->
  2 ^ (a + c + 1) * (2 * j + 1) - 2 ^ a < x < 2 ^ (a + c + 1) * (2 * j + 1) + (2 ^ c - 1) ->
  popcount x <> (popcount j + Z.to_nat c + 1)%nat.
Proof.
  intros Ha Hc Hj Hx.
  pose proof (pow2_pos a Ha) as Pa. pose proof (pow2_pos c Hc) as Pc.
  pose proof (pow2_pos (c + 1) ltac:(lia)) as Pc1.
  assert (E : 2 ^ (a + c + 1) = 2 ^ a * 2 ^ (c + 1))
    by (rewrite <- Z.pow_add_r by lia; f_equal; lia).
  assert (E1 : 2 ^ (c + 1) = 2 * 2 ^ c)
    by (rewrite Z.pow_add_r by lia; change (2 ^ 1) with 2; ring).
  destruct (Z.lt_ge_cases x (2 ^ (a + c + 1) * (2 * j + 1))) as [Hlow|Hhigh].
  - set (r := x - (2 ^ (a + c + 1) * (2 * j + 1) - 2 ^ a)).
    assert (Hr : 0 < r < 2 ^ a) by (unfold r; lia).
    replace x with (2 ^ (a + c + 1) * (2 * j) + (2 ^ a * (2 ^ (c + 1) - 1) + r))
      by (unfold r; rewrite E; ring).
    rewrite popcount_glue; [| lia | lia | rewrite E; nia].
    rewrite popcount_glue by lia.
    rewrite popcount_double, popcount_ones by lia.
    pose proof (popcount_positive r ltac:(lia)). lia.
  - set (z := x - 2 ^ (a + c + 1) * (2 * j + 1)).
    assert (Hz : 0 <= z < 2 ^ c - 1) by (unfold z; lia).
    replace x with (2 ^ (a + c + 1) * (2 * j + 1) + z) by (unfold z; ring).
    rewrite popcount_glue; [| lia | lia | rewrite E; nia].
    rewrite popcount_succ_double by lia.
    pose proof (popcount_below c z Hc Hz). lia.
Qed.

Lemma bit_identity_next w :
  0 < w -> exists v, bit_identity w = Ok v /\ w < v /\
    popcount v = popcount w /\
    forall x, w < x < v -> popcount x <> popcount w.
Proof.
  intros Hw. destruct (word_shape w Hw) as (a & c & j & Ha & Hc & Hj & Ew & Ev).
  eexists. split; [exact Ev|].
  pose proof (pow2_pos a Ha) as Pa. pose proof (pow2_pos c Hc) as Pc.
  rewrite Ew. repeat split.
  - lia.
  - now rewrite popcount_shape_seed, popcount_shape_next.
  - intros x Hx. rewrite popcount_shape_seed by assumption.
    now apply nothing_between with (a := a).
Qed.

(** ** The generator *)

Lemma next_held gen :
  next gen = do w <- bit_identity (held gen); Ok (w, Suspended w).
Proof. destruct gen; reflexivity. Qed.

Lemma pull_successive n :
  forall gen acc, 0 < held gen ->
  exists ws gen',
    pull n gen acc = Ok (acc ++ ws, gen')
    /\ List.length ws = n
    /\ successive (popcount (held gen)) (held gen) ws.
Proof.
  induction n as [|n IH]; intros gen acc Hpos.
  - exists [], gen. simpl. rewrite app_nil_r. auto.
  - destruct (bit_identity_next (held gen) Hpos) as (v & Hv & Hlt & Hpc & Hmin).
    destruct (IH (Suspended v) (acc ++ [v])) as (ws & gen' & Hp & Hl & Hs);
      [simpl; lia|].
    exists (v :: ws), gen'. simpl pull. rewrite next_held, Hv. simpl bind.
    rewrite Hp. simpl held in Hs. rewrite Hpc in Hs.
    repeat split; simpl; auto.
    now rewrite <- app_assoc.
Qed.

(** C7: from a seed with [k] one bits ([k >= 1], the seed positive), any
    number of values can be pulled from [next_word]; each has exactly [k]
    one bits and is the least integer above its predecessor (above the seed,
    for the first) that has, and each is the value of the bit identity,
    whose division is the floor division [Z.div]. *)
Theorem next_word_successive (bits : Z) (n : nat) :
  0 < bits ->
  exists ws gen,
    pull n (next_word bits) [] = Ok (ws, gen)
    /\ List.length ws = n
    /\ successive (popcount bits) bits ws.
Proof.
  intros Hpos.
  destruct (pull_successive n (next_word bits) [] Hpos) as (ws & gen & Hp & Hl & Hs).
  exists ws, gen. auto.
Qed.

Lemma next_word_successive_witness :
  0 < 31 /\
  exists ws gen,
    pull 3 (next_word 31) [] = Ok (ws, gen)
    /\ List.length ws = 3%nat
    /\ successive (popcount 31) 31 ws.
Proof.
  split; [reflexivity | apply (next_word_successive 31 3); reflexivity].
Defined.

(** The seed zero has no lowest one bit: the first [next] raises. *)
Lemma next_word_zero : next (next_word 0) = Raise ZeroDivisionError.
Proof. reflexivity. Qed.

Lemma bit_identity_above w :
  w <> 0 -> w <> -1 -> exists v, bit_identity w = Ok v /\ w < v.
Proof.
  intros H0 H1. destruct (odd_decomp w H0) as (a & k & Ha & E).
  pose proof (pow2_pos a Ha) as Pa.
  destruct (Z.eq_dec (k + 1) 0) as [Hk|Hk].
  - assert (k = -1) as -> by lia.
    replace (2 ^ a * (2 * -1 + 1)) with (- 2 ^ a) in E by ring.
    exists (-1). subst w. split; [now apply bit_identity_neg_pow2|lia].
  - destruct (odd_decomp (k + 1) Hk) as (c & j & Hc & E').
    pose proof (pow2_pos c Hc) as Pc.
    exists (2 ^ (a + c + 1) * (2 * j + 1) + (2 ^ c - 1)).
    split; [subst w; apply bit_identity_closed; assumption|].
    replace (a + c + 1) with (a + 1 + c) by lia.
    rewrite !Z.pow_add_r by lia. change (2 ^ 1) with 2.
    assert (Ew : w = 2 ^ a * 2 * (2 ^ c * (2 * j + 1)) - 2 ^ a)
      by (rewrite <- E', E; ring).
    rewrite Ew. nia.
Qed.

(** C10, as the code has it: every seed other than 0 and -1 (so every
    positive seed, as the table builders pass) makes the first value that
    [next_word] yields strictly greater than the seed. *)
Theorem next_word_first_yield_above_seed (bits : Z) :
  bits <> 0 -> bits <> -1 ->
  exists w gen, next (next_word bits) = Ok (w, gen) /\ bits < w.
Proof.
  intros H0 H1. destruct (bit_identity_above bits H0 H1) as (v & Hv & Hlt).
  exists v, (Suspended v). unfold next_word, next. now rewrite Hv.
Qed.

Lemma next_word_first_yield_above_seed_witness :
  7 <> 0 /\ 7 <> -1 /\
  exists w gen, next (next_word 7) = Ok (w, gen) /\ 7 < w.
Proof.
  refine (conj _ (conj _ (next_word_first_yield_above_seed 7 _ _)));
    discriminate.
Defined.

(** The seed -1 is yielded back: the first value is not above it. *)
Lemma next_word_minus_one_yields_seed :
  next (next_word (-1)) = Ok (-1, Suspended (-1))
  /\ ~ (forall bits : Z,
          exists w gen, next (next_word bits) = Ok (w, gen) /\ bits < w).
Proof.
  split; [reflexivity|].
  intros H. destruct (H (-1)) as (w & gen & E & L).
  vm_compute in E. inversion E; subst. lia.
Qed.

(** ** The five-card table *)

Lemma holds_after_build_spec check :
  holds_after_build check = true ->
  exists tbl, LookupTable.build = Ok tbl /\ check tbl = true.
Proof.
  unfold holds_after_build. destruct LookupTable.build as [tbl|e]; [eauto|discriminate].
Qed.

Lemma built_check_all : holds_after_build check_all = true.
Proof. vm_compute. reflexivity. Qed.

Lemma check_all_spec tbl s r1 r2 r3 r4 r5 :
  check_all tbl = true ->
  (r1 < 13)%nat -> (r2 < 13)%nat -> (r3 < 13)%nat -> (r4 < 13)%nat -> (r5 < 13)%nat ->
  shape_ok s [r1; r2; r3; r4; r5] = true ->
  check_shape tbl s [r1; r2; r3; r4; r5] = true.
Proof.
  intros H H1 H2 H3 H4 H5 Hs. unfold check_all in H.
  rewrite forallb_forall in H. specialize (H r1 ltac:(apply in_seq; lia)).
  rewrite forallb_forall in H. specialize (H r2 ltac:(apply in_seq; lia)).
  rewrite forallb_forall in H. specialize (H r3 ltac:(apply in_seq; lia)).
  rewrite forallb_forall in H. specialize (H r4 ltac:(apply in_seq; lia)).
  rewrite forallb_forall in H. specialize (H r5 ltac:(apply in_seq; lia)).
  rewrite forallb_forall in H.
  assert (Hin : In s [true; false]) by (destruct s; simpl; auto).
  specialize (H s Hin). rewrite Hs in H. exact H.
Qed.

Lemma count_rank_count_occ r rs : count_rank r rs = count_occ Nat.eq_dec rs r.
Proof.
  unfold count_rank. induction rs as [|x rs IH]; [reflexivity|].
  simpl. destruct (Nat.eq_dec x r) as [->|Hne].
  - rewrite Nat.eqb_refl. simpl. now rewrite IH.
  - destruct (Nat.eqb_spec r x) as [->|_]; [congruence|exact IH].
Qed.

Lemma distinct_of_NoDup rs : List.NoDup rs -> distinct rs = true.
Proof.
  intros Hnd. unfold distinct. apply forallb_forall. intros r _.
  rewrite count_rank_count_occ. apply Nat.leb_le.
  now apply (proj1 (NoDup_count_occ Nat.eq_dec rs)).
Qed.

Lemma same_suit_spec c t d :
  same_suit (c :: t) = true -> In d t -> card_suit d = card_suit c.
Proof.
  simpl. intros H Hin. rewrite forallb_forall in H. specialize (H d Hin).
  destruct (card_suit d), (card_suit c); simpl in H; congruence.
Qed.

Lemma NoDup_ranks_of_suited h :
  same_suit h = true -> List.NoDup h -> List.NoDup (map rank h).
Proof.
  destruct h as [|c t]; [constructor|]. intros Hs Hnd.
  assert (Hsuit : forall d, In d (c :: t) -> card_suit d = card_suit c).
  { intros d [<-|Hin]; [reflexivity | eapply same_suit_spec; eauto]. }
  clear Hs. induction Hnd as [|x l Hx Hnd IH]; [constructor|].
  simpl. constructor.
  - intros Hin. apply in_map_iff in Hin as (y & Hr & Hy). apply Hx.
    assert (y = x); [|now subst].
    destruct x as [rx sx], y as [ry sy]. simpl in Hr. subst ry. f_equal.
    pose proof (Hsuit _ (or_introl eq_refl)) as E1.
    pose proof (Hsuit _ (or_intror Hy)) as E2. simpl in E1, E2. congruence.
  - apply IH. intros d Hd. apply Hsuit. now right.
Qed.

Lemma count_rank_all r r1 r2 r3 r4 r5 :
  count_rank r [r1; r2; r3; r4; r5] = 5%nat ->
  r1 = r /\ r2 = r /\ r3 = r /\ r4 = r /\ r5 = r.
Proof.
  unfold count_rank. simpl.
  destruct (Nat.eqb_spec r r1), (Nat.eqb_spec r r2), (Nat.eqb_spec r r3),
    (Nat.eqb_spec r r4), (Nat.eqb_spec r r5); simpl; intros H;
    try discriminate; auto.
Qed.

Lemma all_suits (s : suit) : In s [Spades; Hearts; Diamonds; Clubs].
Proof. destruct s; simpl; auto. Qed.

(** A deck has four cards of a rank: five different cards are not all of
    one rank. *)
Lemma not_five_of_a_rank h : valid_hand h -> has_count 5 (map rank h) = false.
Proof.
  intros (Hlen & Hnd & _).
  destruct h as [|c1 [|c2 [|c3 [|c4 [|c5 [|c6 h]]]]]]; try discriminate Hlen.
  destruct (has_count 5 _) eqn:E; [exfalso|reflexivity].
  unfold has_count in E. apply existsb_exists in E as (r & _ & E).
  apply Nat.eqb_eq, count_rank_all in E as (E1 & E2 & E3 & E4 & E5).
  destruct c1 as [r1 s1], c2 as [r2 s2], c3 as [r3 s3], c4 as [r4 s4], c5 as [r5 s5].
  simpl in *. subst.
  assert (Hs : List.NoDup [s1; s2; s3; s4; s5])
    by (apply (NoDup_map_inv (fun s => {| rank := r; card_suit := s |})); exact Hnd).
  assert (Hincl : incl [s1; s2; s3; s4; s5] [Spades; Hearts; Diamonds; Clubs])
    by (intros s _; apply all_suits).
  pose proof (NoDup_incl_length Hs Hincl) as Hl. simpl in Hl. lia.
Qed.

Lemma shape_of_valid_hand h :
  valid_hand h -> shape_ok (same_suit h) (map rank h) = true.
Proof.
  intros Hv. unfold shape_ok. destruct (same_suit h) eqn:Es.
  - apply distinct_of_NoDup, NoDup_ranks_of_suited; [exact Es|apply Hv].
  - now rewrite not_five_of_a_rank.
Qed.

(** C1: [build] returns a table in which every hand of five different cards
    has a rank, between 1 and 7462, whose class by the boundary constants is
    the hand's category; the royal flush's product has rank 1 in [flush]
    (class 1, Straight Flush) and the product of 7-5-4-3-2 has rank 7462 in
    [unsuited] (class 9, High Card). *)
Theorem five_card_table_ranks :
  exists tbl,
    LookupTable.build = Ok tbl
    /\ (forall h, valid_hand h ->
        exists r,
          five_card_rank tbl h = Some r
          /\ 1 <= r <= LookupTable.MAX_HIGH_CARD
          /\ get_rank_class r = Some (hand_category h))
    /\ LookupTable.flush tbl !! snd (card.product_from_rankbits 7936) = Some 1
    /\ get_rank_class 1 = Some 1
    /\ LookupTable.unsuited tbl !! snd (card.product_from_rankbits 47) = Some 7462
    /\ get_rank_class 7462 = Some 9.
Proof.
  destruct (holds_after_build_spec _ built_check_all) as (tbl & Hb & Hall).
  exists tbl. split; [exact Hb|]. split.
  - intros h Hv. pose proof (shape_of_valid_hand h Hv) as Hs.
    destruct Hv as (Hlen & _ & Hr). revert Hs.
    destruct h as [|c1 [|c2 [|c3 [|c4 [|c5 [|c6 h]]]]]]; try discriminate Hlen.
    intros Hs.
    repeat match goal with H : Forall _ (_ :: _) |- _ => inversion H; clear H; subst end.
    unfold five_card_rank, hand_category.
    set (s := same_suit _) in *. set (rs := map rank _) in *.
    assert (Hc : check_shape tbl s rs = true) by (apply check_all_spec; assumption).
    unfold check_shape in Hc. destruct (table_rank tbl s rs) as [r|]; [|discriminate].
    exists r. apply andb_prop in Hc as (Hc & Hcl). apply andb_prop in Hc as (Hlo & Hhi).
    destruct (get_rank_class r) as [c|]; [|discriminate].
    apply Z.eqb_eq in Hcl. apply Z.leb_le in Hlo, Hhi. subst c.
    unfold LookupTable.MAX_HIGH_CARD. auto.
  - assert (Hx : holds_after_build (fun tbl =>
        bool_decide (LookupTable.flush tbl !! snd (card.product_from_rankbits 7936) = Some 1)
        && bool_decide (LookupTable.unsuited tbl !! snd (card.product_from_rankbits 47) = Some 7462)) = true)
      by (vm_compute; reflexivity).
    apply holds_after_build_spec in Hx as (tbl' & Hb' & Hx).
    assert (tbl' = tbl) by congruence. subst tbl'.
    apply andb_prop in Hx as (H1 & H2).
    apply bool_decide_eq_true in H1, H2. auto.
Qed.

Lemma five_card_table_ranks_witness :
  valid_hand royal_flush /\
  exists tbl r,
    LookupTable.build = Ok tbl
    /\ five_card_rank tbl royal_flush = Some r
    /\ 1 <= r <= LookupTable.MAX_HIGH_CARD
    /\ get_rank_class r = Some (hand_category royal_flush).
Proof.
  assert (Hv : valid_hand royal_flush).
  { split; [reflexivity|]. split.
    - repeat constructor; simpl; intuition discriminate.
    - repeat constructor; simpl; lia. }
  split; [exact Hv|].
  destruct five_card_table_ranks as (tbl & Hb & Hall & _).
  destruct (Hall royal_flush Hv) as (r & H).
  exists tbl, r. split; [exact Hb | exact H].
Defined.

(** C2, as the code has it: after [build] each class holds the documented
    number of entries (10, 156, 156, 1277, 10, 858, 858, 2860, 1277), 7462
    in all; every pass leaves its counter one above the class's [MAX_*]
    constant, the last rank it assigned being the constant itself. *)
Theorem build_category_counts :
  exists tbl cs,
    LookupTable.build = Ok tbl
    /\ Z.of_nat (entries_between tbl 0 LookupTable.MAX_STRAIGHT_FLUSH) = 10
    /\ Z.of_nat (entries_between tbl LookupTable.MAX_STRAIGHT_FLUSH LookupTable.MAX_FOUR_OF_A_KIND) = 156
    /\ Z.of_nat (entries_between tbl LookupTable.MAX_FOUR_OF_A_KIND LookupTable.MAX_FULL_HOUSE) = 156
    /\ Z.of_nat (entries_between tbl LookupTable.MAX_FULL_HOUSE LookupTable.MAX_FLUSH) = 1277
    /\ Z.of_nat (entries_between tbl LookupTable.MAX_FLUSH LookupTable.MAX_STRAIGHT) = 10
    /\ Z.of_nat (entries_between tbl LookupTable.MAX_STRAIGHT LookupTable.MAX_THREE_OF_A_KIND) = 858
    /\ Z.of_nat (entries_between tbl LookupTable.MAX_THREE_OF_A_KIND LookupTable.MAX_TWO_PAIR) = 858
    /\ Z.of_nat (entries_between tbl LookupTable.MAX_TWO_PAIR LookupTable.MAX_PAIR) = 2860
    /\ Z.of_nat (entries_between tbl LookupTable.MAX_PAIR LookupTable.MAX_HIGH_CARD) = 1277
    /\ Z.of_nat (size (LookupTable.flush tbl) + size (LookupTable.unsuited tbl)) = 7462
    /\ final_counters = Ok cs
    /\ map Z.pred cs = map fst LookupTable.MAX_TO_RANK_CLASS.
Proof.
  assert (Hx : holds_after_build (fun tbl =>
      (Z.of_nat (entries_between tbl 0 LookupTable.MAX_STRAIGHT_FLUSH) =? 10)
      && (Z.of_nat (entries_between tbl LookupTable.MAX_STRAIGHT_FLUSH LookupTable.MAX_FOUR_OF_A_KIND) =? 156)
      && (Z.of_nat (entries_between tbl LookupTable.MAX_FOUR_OF_A_KIND LookupTable.MAX_FULL_HOUSE) =? 156)
      && (Z.of_nat (entries_between tbl LookupTable.MAX_FULL_HOUSE LookupTable.MAX_FLUSH) =? 1277)
      && (Z.of_nat (entries_between tbl LookupTable.MAX_FLUSH LookupTable.MAX_STRAIGHT) =? 10)
      && (Z.of_nat (entries_between tbl LookupTable.MAX_STRAIGHT LookupTable.MAX_THREE_OF_A_KIND) =? 858)
      && (Z.of_nat (entries_between tbl LookupTable.MAX_THREE_OF_A_KIND LookupTable.MAX_TWO_PAIR) =? 858)
      && (Z.of_nat (entries_between tbl LookupTable.MAX_TWO_PAIR LookupTable.MAX_PAIR) =? 2860)
      && (Z.of_nat (entries_between tbl LookupTable.MAX_PAIR LookupTable.MAX_HIGH_CARD) =? 1277)
      && (Z.of_nat (size (LookupTable.flush tbl) + size (LookupTable.unsuited tbl)) =? 7462)) = true)
    by (vm_compute; reflexivity).
  apply holds_after_build_spec in Hx as (tbl & Hb & Hx).
  exists tbl, [11; 167; 323; 1600; 1610; 2468; 3326; 6186; 7463].
  split; [exact Hb|].
  repeat (apply andb_prop in Hx as (Hx & ?)).
  repeat match goal with H : (_ =? _) = true |- _ => apply Z.eqb_eq in H end.
  repeat (split; [assumption|]).
  split; [vm_compute; reflexivity | reflexivity].
Qed.

(** The counters themselves are one above the boundaries: [rank] is
    incremented after every assignment. *)
Lemma final_counters_exceed_boundaries :
  final_counters = Ok [11; 167; 323; 1600; 1610; 2468; 3326; 6186; 7463]
  /\ ~ (exists cs, final_counters = Ok cs
                   /\ cs = map fst LookupTable.MAX_TO_RANK_CLASS).
Proof.
  assert (E : final_counters = Ok [11; 167; 323; 1600; 1610; 2468; 3326; 6186; 7463])
    by (vm_compute; reflexivity).
  split; [exact E|]. intros (cs & Hcs & ->). rewrite E in Hcs.
  vm_compute in Hcs. discriminate Hcs.
Qed.

Lemma built_check_quads : holds_after_build check_quads = true.
Proof. vm_compute. reflexivity. Qed.

Lemma check_quads_spec tbl i k :
  check_quads tbl = true -> (i < 13)%nat -> (k < 13)%nat -> k <> i ->
  LookupTable.unsuited tbl !! quads_key i k = Some (quads_rank i k).
Proof.
  intros H Hi Hk Hne. unfold check_quads in H.
  rewrite forallb_forall in H. specialize (H i ltac:(apply in_seq; lia)).
  rewrite forallb_forall in H. specialize (H k ltac:(apply in_seq; lia)).
  apply orb_prop in H as [H|H].
  - apply Nat.eqb_eq in H. congruence.
  - destruct (LookupTable.unsuited tbl !! quads_key i k) as [r|]; [|discriminate].
    apply Z.eqb_eq in H. now subst.
Qed.

Lemma quads_rank_monotone i k i' k' :
  (i < 13)%nat -> (k < 13)%nat -> (i' < 13)%nat -> (k' < 13)%nat ->
  k <> i -> k' <> i' -> quads_beat (i, k) (i', k') ->
  quads_rank i k < quads_rank i' k'.
Proof.
  unfold quads_beat, quads_rank. simpl. intros Hi Hk Hi' Hk' Hne Hne' Hb.
  destruct (Nat.ltb_spec k i), (Nat.ltb_spec k' i'); lia.
Qed.

(** C3: in the table [build] returns, whenever four of rank [i] with kicker
    [k] beat four of rank [i'] with kicker [k'] (higher quad rank, then
    higher kicker), the first has the strictly lower rank; aces with a king
    (11) are below aces with a queen (12), which are below kings with an ace
    (23). *)
Theorem quads_ranked_by_strength :
  exists tbl,
    LookupTable.build = Ok tbl
    /\ (forall i k i' k',
          (i < 13)%nat -> (k < 13)%nat -> (i' < 13)%nat -> (k' < 13)%nat ->
          k <> i -> k' <> i' -> quads_beat (i, k) (i', k') ->
          exists r r',
            LookupTable.unsuited tbl !! quads_key i k = Some r
            /\ LookupTable.unsuited tbl !! quads_key i' k' = Some r'
            /\ LookupTable.MAX_STRAIGHT_FLUSH < r /\ r < r'
            /\ r' <= LookupTable.MAX_FOUR_OF_A_KIND)
    /\ LookupTable.unsuited tbl !! quads_key 12 11 = Some 11
    /\ LookupTable.unsuited tbl !! quads_key 12 10 = Some 12
    /\ LookupTable.unsuited tbl !! quads_key 11 12 = Some 23.
Proof.
  destruct (holds_after_build_spec _ built_check_quads) as (tbl & Hb & Hq).
  exists tbl. split; [exact Hb|]. split.
  - intros i k i' k' Hi Hk Hi' Hk' Hne Hne' Hbeat.
    exists (quads_rank i k), (quads_rank i' k').
    split; [now apply check_quads_spec|]. split; [now apply check_quads_spec|].
    pose proof (quads_rank_monotone i k i' k' Hi Hk Hi' Hk' Hne Hne' Hbeat).
    unfold LookupTable.MAX_STRAIGHT_FLUSH, LookupTable.MAX_FOUR_OF_A_KIND.
    unfold quads_rank in *.
    destruct (Nat.ltb_spec k i), (Nat.ltb_spec k' i'); lia.
  - repeat split; rewrite (check_quads_spec tbl) by (assumption || lia); reflexivity.
Qed.

Lemma quads_ranked_by_strength_witness :
  quads_beat (12, 11)%nat (12, 10)%nat /\
  exists tbl r r',
    LookupTable.build = Ok tbl
    /\ LookupTable.unsuited tbl !! quads_key 12 11 = Some r
    /\ LookupTable.unsuited tbl !! quads_key 12 10 = Some r'
    /\ r < r'.
Proof.
  assert (Hbeat : quads_beat (12, 11)%nat (12, 10)%nat) by (right; simpl; lia).
  split; [exact Hbeat|].
  destruct quads_ranked_by_strength as (tbl & Hb & Hall & _).
  destruct (Hall 12 11 12 10)%nat as (r & r' & H1 & H2 & _ & H3 & _);
    try lia; try exact Hbeat.
  exists tbl, r, r'. auto.
Defined.

(** ** The draw tables *)

Lemma holds_spec {A : Type} (r : result A) (check : A -> bool) :
  holds r check = true -> exists a, r = Ok a /\ check a = true.
Proof. destruct r as [a|e]; simpl; [eauto|discriminate]. Qed.

(** The two branches of [add_rank]. *)
Lemma add_rank_fresh product rank d :
  d !! product = None ->
  add_rank product rank d = Ok (<[product := PyList [rank]]> d).
Proof. intros H. unfold add_rank, exist_key. now rewrite H. Qed.

Lemma add_rank_again product rank d x l :
  d !! product = Some (PyList (x :: l)) ->
  add_rank product rank d = Ok (<[product := PyList ((x :: l) ++ [rank])]> d).
Proof. intros H. unfold add_rank, exist_key. now rewrite H. Qed.

(** C5, on the code: [build] of both draw tables ends with bare integers in
    [flush], under every signature the flush pass writes; such a value is
    no list.  Shown for the three cards 2-7-Q of a suit (pattern 1057) and
    the four cards 2-7-J-K (pattern 2593). *)
Theorem draw_table_flush_value_is_integer :
  exists t3 t4,
    LookupTableThreeCards.build = Ok t3
    /\ LookupTableThreeCards.flush t3 !! snd (card.product_from_rankbits 1057)
       = Some (PyInt 480)
    /\ LookupTableFourCards.build = Ok t4
    /\ LookupTableFourCards.flush t4 !! snd (card.product_from_rankbits 2593)
       = Some (PyInt 765).
Proof.
  assert (H3 : holds LookupTableThreeCards.build (fun t =>
      match LookupTableThreeCards.flush t !! snd (card.product_from_rankbits 1057) with
      | Some (PyInt z) => z =? 480
      | _ => false
      end) = true) by (vm_compute; reflexivity).
  assert (H4 : holds LookupTableFourCards.build (fun t =>
      match LookupTableFourCards.flush t !! snd (card.product_from_rankbits 2593) with
      | Some (PyInt z) => z =? 765
      | _ => false
      end) = true) by (vm_compute; reflexivity).
  apply holds_spec in H3 as (t3 & E3 & H3), H4 as (t4 & E4 & H4).
  exists t3, t4.
  destruct (LookupTableThreeCards.flush t3 !! _) as [[z3|]|]; try discriminate H3.
  destruct (LookupTableFourCards.flush t4 !! _) as [[z4|]|]; try discriminate H4.
  apply Z.eqb_eq in H3, H4. subst. auto.
Qed.

(** C6, on the code: when [build_multiples] of the three-card table reaches
    4) Two Pairs the variable [i] is 0, left by the loop before, and the pass
    keys by [PRIMES[i]**2 * PRIMES[k]].  Its first iteration ([r] = 12,
    [k] = 11) so adds rank 1023 under [pair_key 0 11] = 148; the signature
    [pair_key 12 11] ends with the ranks of the three earlier passes only,
    none of 1023..1464. *)
Theorem two_pairs_pass_reads_stale_i :
  exists st t,
    locals_before_two_pairs = Ok st
    /\ snd st = Some 0%nat
    /\ LookupTableThreeCards.build = Ok t
    /\ LookupTableThreeCards.unsuited t !! pair_key 12 11
       = Some (PyList [24; 193; 581])
    /\ LookupTableThreeCards.unsuited t !! pair_key 0 11
       = Some (PyList [169; 338; 726; 1023; 1048; 1060; 1072; 1084; 1096;
                       1108; 1120; 1132; 1144; 1156; 1168]).
Proof.
  assert (Hs : holds locals_before_two_pairs (fun st =>
      match snd st with Some O => true | _ => false end) = true)
    by (vm_compute; reflexivity).
  assert (Ht : holds LookupTableThreeCards.build (fun t =>
      match LookupTableThreeCards.unsuited t !! pair_key 12 11,
            LookupTableThreeCards.unsuited t !! pair_key 0 11 with
      | Some (PyList l), Some (PyList l') =>
          bool_decide (l = [24; 193; 581])
          && bool_decide (l' = [169; 338; 726; 1023; 1048; 1060; 1072; 1084;
                                1096; 1108; 1120; 1132; 1144; 1156; 1168])
      | _, _ => false
      end) = true) by (vm_compute; reflexivity).
  apply holds_spec in Hs as (st & Es & Hs), Ht as (t & Et & Ht).
  exists st, t.
  destruct (snd st) as [[|n]|]; try discriminate Hs.
  destruct (LookupTableThreeCards.unsuited t !! pair_key 12 11) as [[z|l]|];
    try discriminate Ht.
  destruct (LookupTableThreeCards.unsuited t !! pair_key 0 11) as [[z'|l']|];
    try discriminate Ht.
  apply andb_prop in Ht as (H1 & H2). apply bool_decide_eq_true in H1, H2.
  subst. auto 10.
Qed.

(** ** The multi-card evaluator *)

Lemma combinations_length {A : Type} (l : list A) :
  forall k, List.length (combinations l k) = binomial (List.length l) k.
Proof.
  induction l as [|x l IH]; intros [|k]; simpl; try reflexivity.
  now rewrite length_app, length_map, !IH.
Qed.

Section OmahaFacts.

Variable Card : Type.
Variable _five : list Card -> Z.

Local Abbreviation best := (OmahaEvaluator.best Card _five).
Local Abbreviation _eightnineten := (OmahaEvaluator._eightnineten Card _five).
Local Abbreviation all2cardscombos := (OmahaEvaluator.all2cardscombos Card).
Local Abbreviation all5cardscombos := (OmahaEvaluator.all5cardscombos Card).
Local Abbreviation hand_size_map := (OmahaEvaluator.hand_size_map Card _five).
Local Abbreviation evaluate := (OmahaEvaluator.evaluate Card _five).
Local Abbreviation scored := (OmahaEvaluator.scored Card).



Lemma all2cardscombos_length cards :
  (5 <= List.length cards)%nat -> List.length (all2cardscombos cards) = 10%nat.
Proof.
  intros H. unfold OmahaEvaluator.all2cardscombos.
  rewrite combinations_length, length_firstn, Nat.min_l by exact H. reflexivity.
Qed.

Lemma all5cardscombos_length cards :
  (5 <= List.length cards)%nat -> List.length (all5cardscombos cards) = 10%nat.
Proof.
  intros H. unfold OmahaEvaluator.all5cardscombos.
  rewrite length_map. now apply all2cardscombos_length.
Qed.


(** What [evaluate] returns is found by scoring [scored cards]. *)
Lemma evaluate_scored cards :
  (5 <= List.length cards <= 10)%nat ->
  evaluate cards
  = Ok (if Nat.eqb (List.length cards) 5 then _five cards else best (scored cards)).
Proof.
  unfold OmahaEvaluator.evaluate, OmahaEvaluator.hand_size_map,
    OmahaEvaluator.scored.
  destruct (List.length cards) as [|[|[|[|[|[|[|[|[|[|[|n]]]]]]]]]]]; simpl;
    intros H; try lia; reflexivity.
Qed.


End OmahaFacts.




(** ** More on the generator *)

Lemma lowest_set_bit_nonzero w : w <> 0 -> Z.land w (- w) <> 0.
Proof.
  intros Hw. destruct (odd_decomp w Hw) as (a & k & Ha & ->).
  rewrite lowest_set_bit by assumption. pose proof (pow2_pos a Ha). lia.
Qed.

Lemma bit_identity_nonzero w :
  w <> 0 -> exists v, bit_identity w = Ok v /\ v <> 0.
Proof.
  intros Hw. destruct (odd_decomp w Hw) as (a & k & Ha & ->).
  pose proof (pow2_pos a Ha) as Pa.
  destruct (Z.eq_dec (k + 1) 0) as [Hk|Hk].
  - assert (k = -1) as -> by lia.
    replace (2 ^ a * (2 * -1 + 1)) with (- 2 ^ a) by ring.
    exists (-1). split; [now apply bit_identity_neg_pow2|lia].
  - destruct (odd_decomp (k + 1) Hk) as (c & j & Hc & E').
    pose proof (pow2_pos c Hc) as Pc.
    pose proof (pow2_pos (a + c + 1) ltac:(lia)) as Pac.
    exists (2 ^ (a + c + 1) * (2 * j + 1) + (2 ^ c - 1)).
    split; [apply bit_identity_closed; assumption|].
    assert (E : 2 ^ (a + c + 1) = 2 ^ c * 2 ^ (a + 1))
      by (rewrite <- Z.pow_add_r by lia; f_equal; lia).
    pose proof (pow2_pos (a + 1) ltac:(lia)) as Pa1.
    assert (2 <= 2 ^ (a + 1)).
    { replace (a + 1) with (Z.succ a) by lia. rewrite Z.pow_succ_r by lia. lia. }
    rewrite E. intros Hz.
    assert (Hd : 2 ^ c * (2 ^ (a + 1) * (2 * j + 1) + 1) = 1) by lia.
    apply Z.mul_eq_1 in Hd. nia.
Qed.

(** [pull] with a list to extend is [pull] from the empty list, appended. *)
Lemma pull_acc n : forall gen acc,
  pull n gen acc
  = do '(ws, gen') <- pull n gen []; Ok (acc ++ ws, gen').
Proof.
  induction n as [|n IH]; intros gen acc; simpl.
  - now rewrite app_nil_r.
  - destruct (next gen) as [[f gen']|e]; simpl; [|reflexivity].
    rewrite (IH gen' (acc ++ [f])), (IH gen' [f]).
    destruct (pull n gen' []) as [[ws g]|e]; simpl; [|reflexivity].
    now rewrite <- app_assoc.
Qed.

(** Pulling [n + m] values is pulling [n], then [m] more from the generator
    as it was left. *)
Theorem pull_add n m gen acc :
  pull (n + m) gen acc = do '(l, gen') <- pull n gen acc; pull m gen' l.
Proof.
  revert gen acc. induction n as [|n IH]; intros gen acc; simpl; [reflexivity|].
  destruct (next gen) as [[f gen']|e]; simpl; [apply IH|reflexivity].
Qed.

Lemma pull_total n : forall gen acc,
  held gen <> 0 ->
  exists ws gen', pull n gen acc = Ok (acc ++ ws, gen') /\ List.length ws = n.
Proof.
  induction n as [|n IH]; intros gen acc Hnz; simpl.
  - exists [], gen. now rewrite app_nil_r.
  - destruct (bit_identity_nonzero (held gen) Hnz) as (v & Hv & Hvnz).
    rewrite next_held, Hv. simpl.
    destruct (IH (Suspended v) (acc ++ [v]) Hvnz) as (ws & gen' & Hp & Hl).
    exists (v :: ws), gen'. rewrite Hp. simpl. rewrite Hl.
    now rewrite <- app_assoc.
Qed.

(** X1: the generator raises exactly when seeded with 0, at the first [next],
    with the division error; seeded with anything else it can be pulled
    from for ever. *)
Theorem next_word_raises_iff_zero (bits : Z) :
  (bits = 0 ->
   forall n acc, pull (S n) (next_word bits) acc = Raise ZeroDivisionError)
  /\ (bits <> 0 ->
      forall n acc,
        exists ws gen,
          pull n (next_word bits) acc = Ok (acc ++ ws, gen)
          /\ List.length ws = n).
Proof.
  split.
  - intros -> n acc. reflexivity.
  - intros Hnz n acc. now apply pull_total.
Qed.

Lemma next_word_raises_iff_zero_witness :
  (forall n acc, pull (S n) (next_word 0) acc = Raise ZeroDivisionError)
  /\ (forall n acc,
        exists ws gen,
          pull n (next_word (-6)) acc = Ok (acc ++ ws, gen)
          /\ List.length ws = n).
Proof.
  split.
  - apply (next_word_raises_iff_zero 0). reflexivity.
  - apply (next_word_raises_iff_zero (-6)). discriminate.
Defined.

Lemma pull_S n gen acc :
  pull (S n) gen acc = do '(f, gen') <- next gen; pull n gen' (acc ++ [f]).
Proof. reflexivity. Qed.

Lemma pull_reaches m : forall w x,
  0 < w -> w < x -> popcount x = popcount w -> (Z.to_nat (x - w) <= m)%nat ->
  exists n ws gen, pull (S n) (Suspended w) [] = Ok (ws ++ [x], gen).
Proof.
  induction m as [|m IH]; intros w x Hw Hlt Hpc Hm; [lia|].
  destruct (bit_identity_next w Hw) as (v & Hv & Hwv & Hpv & Hmin).
  assert (Hvx : v <= x).
  { destruct (Z.le_gt_cases v x) as [H|H]; [exact H|].
    exfalso. apply (Hmin x); [lia | exact Hpc]. }
  destruct (Z.eq_dec v x) as [->|Hne].
  - exists O, [], (Suspended x). simpl. now rewrite Hv.
  - destruct (IH v x) as (n & ws & gen & Hp); try lia; try congruence.
    exists (S n), (v :: ws), gen.
    rewrite (pull_S (S n)), next_held. simpl held. rewrite Hv.
    unfold bind at 1 2. rewrite pull_acc, Hp. reflexivity.
Qed.

(** X2: every integer above a positive seed with as many one bits as the seed
    is yielded after finitely many calls of [next]. *)
Theorem next_word_reaches (bits x : Z) :
  0 < bits -> bits < x -> popcount x = popcount bits ->
  exists n ws gen, pull (S n) (next_word bits) [] = Ok (ws ++ [x], gen).
Proof.
  intros Hb Hlt Hpc.
  destruct (pull_reaches (Z.to_nat (x - bits)) bits x Hb Hlt Hpc (Nat.le_refl _))
    as (n & ws & gen & Hp).
  exists n, ws, gen. exact Hp.
Qed.

Lemma next_word_reaches_witness :
  0 < 7 /\ 7 < 19 /\ popcount 19 = popcount 7
  /\ exists n ws gen, pull (S n) (next_word 7) [] = Ok (ws ++ [19], gen).
Proof.
  refine (conj _ (conj _ (conj _ (next_word_reaches 7 19 _ _ _))));
    reflexivity.
Defined.

(** ** More on the five-card table *)

Lemma count_from_In lo n x :
  In x (count_from lo n) <-> lo <= x < lo + Z.of_nat n.
Proof.
  revert lo. induction n as [|n IH]; intros lo; simpl count_from.
  - simpl. lia.
  - simpl In. rewrite IH. lia.
Qed.

Lemma count_from_NoDup lo n : List.NoDup (count_from lo n).
Proof.
  revert lo. induction n as [|n IH]; intros lo; simpl; constructor.
  - rewrite count_from_In. lia.
  - apply IH.
Qed.

Lemma built_check_values : holds_after_build check_values = true.
Proof. vm_compute. reflexivity. Qed.

(** X3: the ranks of the two dictionaries are 1, 2, ..., 7462, each held by
    exactly one entry: no two signatures of a dictionary share a rank and
    no rank is in both. *)
Theorem build_ranks_are_one_to_7462 :
  exists tbl,
    LookupTable.build = Ok tbl
    /\ List.NoDup (table_values tbl)
    /\ forall r, In r (table_values tbl) <-> 1 <= r <= LookupTable.MAX_HIGH_CARD.
Proof.
  destruct (holds_after_build_spec _ built_check_values) as (tbl & Hb & Hc).
  exists tbl. split; [exact Hb|].
  unfold check_values in Hc. apply bool_decide_eq_true in Hc.
  pose proof (merge_sort_Permutation Z.le (table_values tbl)) as Hp.
  rewrite Hc in Hp. split.
  - eapply Permutation_NoDup; [exact Hp | apply count_from_NoDup].
  - intros r. unfold LookupTable.MAX_HIGH_CARD. split; intros H.
    + apply (Permutation_in _ (Permutation_sym Hp)), count_from_In in H. lia.
    + apply (Permutation_in _ Hp), count_from_In. lia.
Qed.

Lemma built_check_twins : holds_after_build check_twins = true.
Proof. vm_compute. reflexivity. Qed.

(** X4: the straights and high cards reuse the suited patterns: a signature of
    [flush] is a signature of [unsuited] too, a straight flush of rank [r]
    as the straight of rank [r + 1599], a flush of rank [r] as the high card
    of rank [r + 5863]. *)
Theorem flush_keys_are_unsuited_keys :
  exists tbl,
    LookupTable.build = Ok tbl
    /\ forall k r,
         LookupTable.flush tbl !! k = Some r ->
         LookupTable.unsuited tbl !! k = Some (unsuited_twin r).
Proof.
  destruct (holds_after_build_spec _ built_check_twins) as (tbl & Hb & Hc).
  exists tbl. split; [exact Hb|]. intros k r Hk.
  unfold check_twins in Hc. rewrite forallb_forall in Hc.
  specialize (Hc (k, r)). simpl in Hc.
  assert (Hin : In (k, r) (map_to_list (LookupTable.flush tbl)))
    by (apply list_elem_of_In, elem_of_map_to_list; exact Hk).
  specialize (Hc Hin).
  destruct (LookupTable.unsuited tbl !! k) as [r'|]; [|discriminate Hc].
  apply Z.eqb_eq in Hc. now subst.
Qed.

Lemma built_royal_flush :
  holds_after_build (fun tbl =>
    bool_decide (LookupTable.flush tbl !! snd (card.product_from_rankbits 7936) = Some 1))
  = true.
Proof. vm_compute. reflexivity. Qed.

Lemma flush_keys_are_unsuited_keys_witness :
  exists tbl,
    LookupTable.build = Ok tbl
    /\ LookupTable.flush tbl !! snd (card.product_from_rankbits 7936) = Some 1
    /\ LookupTable.unsuited tbl !! snd (card.product_from_rankbits 7936)
       = Some (unsuited_twin 1).
Proof.
  destruct flush_keys_are_unsuited_keys as (tbl & Hb & H).
  destruct (holds_after_build_spec _ built_royal_flush) as (tbl' & Hb' & Hr).
  assert (tbl' = tbl) by congruence. subst tbl'.
  apply bool_decide_eq_true in Hr.
  exists tbl. split; [exact Hb|]. split; [exact Hr|]. apply H. exact Hr.
Defined.

Lemma built_check_full_houses : holds_after_build check_full_houses = true.
Proof. vm_compute. reflexivity. Qed.

Lemma check_full_houses_spec tbl i pr :
  check_full_houses tbl = true -> (i < 13)%nat -> (pr < 13)%nat -> pr <> i ->
  LookupTable.unsuited tbl !! full_house_key i pr = Some (full_house_rank i pr).
Proof.
  intros H Hi Hk Hne. unfold check_full_houses in H.
  rewrite forallb_forall in H. specialize (H i ltac:(apply in_seq; lia)).
  rewrite forallb_forall in H. specialize (H pr ltac:(apply in_seq; lia)).
  apply orb_prop in H as [H|H].
  - apply Nat.eqb_eq in H. congruence.
  - destruct (LookupTable.unsuited tbl !! full_house_key i pr) as [r|];
      [|discriminate H].
    apply Z.eqb_eq in H. now subst.
Qed.

(** X5: full houses are ranked by the rank of the three, then by the rank of
    the pair: the stronger full house has the strictly lower rank, and all
    are in 167..322. *)
Theorem full_houses_ranked_by_strength :
  exists tbl,
    LookupTable.build = Ok tbl
    /\ forall i pr i' pr',
         (i < 13)%nat -> (pr < 13)%nat -> (i' < 13)%nat -> (pr' < 13)%nat ->
         pr <> i -> pr' <> i' -> quads_beat (i, pr) (i', pr') ->
         exists r r',
           LookupTable.unsuited tbl !! full_house_key i pr = Some r
           /\ LookupTable.unsuited tbl !! full_house_key i' pr' = Some r'
           /\ LookupTable.MAX_FOUR_OF_A_KIND < r /\ r < r'
           /\ r' <= LookupTable.MAX_FULL_HOUSE.
Proof.
  destruct (holds_after_build_spec _ built_check_full_houses) as (tbl & Hb & Hq).
  exists tbl. split; [exact Hb|].
  intros i pr i' pr' Hi Hk Hi' Hk' Hne Hne' Hbeat.
  exists (full_house_rank i pr), (full_house_rank i' pr').
  split; [now apply check_full_houses_spec|].
  split; [now apply check_full_houses_spec|].
  unfold LookupTable.MAX_FOUR_OF_A_KIND, LookupTable.MAX_FULL_HOUSE,
    full_house_rank, quads_beat in *. simpl in Hbeat.
  destruct (Nat.ltb_spec pr i), (Nat.ltb_spec pr' i'); lia.
Qed.

Lemma full_houses_ranked_by_strength_witness :
  quads_beat (12, 11)%nat (11, 12)%nat /\
  exists tbl r r',
    LookupTable.build = Ok tbl
    /\ LookupTable.unsuited tbl !! full_house_key 12 11 = Some r
    /\ LookupTable.unsuited tbl !! full_house_key 11 12 = Some r'
    /\ r < r'.
Proof.
  assert (Hbeat : quads_beat (12, 11)%nat (11, 12)%nat) by (left; simpl; lia).
  split; [exact Hbeat|].
  destruct full_houses_ranked_by_strength as (tbl & Hb & Hall).
  destruct (Hall 12 11 11 12)%nat as (r & r' & H1 & H2 & _ & H3 & _);
    try lia; try exact Hbeat.
  exists tbl, r, r'. auto.
Defined.

Lemma notSF_fold f l b0 :
  fold_left (fun notSF sf => if Z.lxor f sf =? 0 then false else notSF) l b0
  = b0 && forallb (fun sf => negb (f =? sf)) l.
Proof.
  revert b0. induction l as [|sf l IH]; intros b0; simpl.
  - now rewrite andb_true_r.
  - rewrite IH. destruct (Z.eqb_spec (Z.lxor f sf) 0) as [E|E].
    + apply (proj1 (Z.lxor_eq_0_iff f sf)) in E. subst sf.
      rewrite Z.eqb_refl. simpl.
      now rewrite andb_false_r.
    + destruct (Z.eqb_spec f sf) as [->|_]; [|reflexivity].
      now rewrite Z.lxor_nilpotent in E.
Qed.

(** X6: the XOR test of [build_flushes] rejects the ten straight-flush patterns
    and nothing else. *)
Theorem notSF_spec (f : Z) :
  LookupTable.notSF f = true <-> ~ In f LookupTable.straight_flushes.
Proof.
  unfold LookupTable.notSF. rewrite notSF_fold, andb_true_l.
  rewrite forallb_forall. split.
  - intros H Hin. specialize (H f Hin). rewrite Z.eqb_refl in H. discriminate H.
  - intros H sf Hin. destruct (Z.eqb_spec f sf) as [->|_]; [contradiction|reflexivity].
Qed.

(** X7: the ranking loop: what it leaves in the counter and the dictionary. *)
Theorem rank_patterns_spec (patterns : list Z) :
  forall (d : gmap Z Z) (rank : Z),
    let d' := fst (LookupTable.rank_patterns patterns d rank) in
    let rank' := snd (LookupTable.rank_patterns patterns d rank) in
    rank' = rank + Z.of_nat (List.length patterns)
    /\ (forall k,
          ~ In k (map (fun p => snd (card.product_from_rankbits p)) patterns) ->
          d' !! k = d !! k)
    /\ (forall p, In p patterns ->
          exists v, d' !! snd (card.product_from_rankbits p) = Some v
                    /\ rank <= v < rank').
Proof.
  induction patterns as [|p ps IH]; intros d rank; simpl.
  - split; [lia|]. split; [auto | contradiction].
  - unfold LookupTable.rank_patterns. simpl fold_left.
    destruct (card.product_from_rankbits p) as [cards product] eqn:Ep.
    specialize (IH (<[product := rank]> d) (rank + 1)).
    unfold LookupTable.rank_patterns in IH. simpl in IH.
    destruct IH as (Hc & Hframe & Hin).
    set (res := fold_left _ ps _) in *.
    split; [lia|]. split.
    + intros k Hk. rewrite Hframe by tauto.
      apply lookup_insert_ne. simpl in Hk. tauto.
    + intros q [<-|Hq].
      * rewrite Ep. simpl.
        destruct (in_dec Z.eq_dec product
                    (map (fun p => snd (card.product_from_rankbits p)) ps))
          as [Hi|Hn].
        -- apply in_map_iff in Hi as (q & Eq & Hq).
           destruct (Hin q Hq) as (v & Hv & Hr). rewrite Eq in Hv.
           exists v. split; [exact Hv|lia].
        -- exists rank. rewrite Hframe by exact Hn.
           split; [apply lookup_insert_eq|lia].
      * destruct (Hin q Hq) as (v & Hv & Hr). exists v. split; [exact Hv|lia].
Qed.

(** A loop whose body always succeeds and moves a counter by [w]. *)
Lemma for_each_counter {A S : Type} (c : S -> Z) (w : Z) (l : list A)
      (body : A -> S -> result S) :
  (forall x s, In x l -> exists s', body x s = Ok s' /\ c s' = c s + w) ->
  forall s, exists s', for_each l body s = Ok s'
                       /\ c s' = c s + w * Z.of_nat (List.length l).
Proof.
  induction l as [|x l IH]; intros Hbody s.
  - exists s. simpl. split; [reflexivity|lia].
  - destruct (Hbody x s (or_introl eq_refl)) as (s1 & E1 & C1).
    destruct (IH (fun y t Hy => Hbody y t (or_intror Hy)) s1) as (s2 & E2 & C2).
    exists s2. simpl for_each. rewrite E1. simpl bind. split; [exact E2|].
    rewrite C2, C1. simpl List.length. lia.
Qed.

Lemma prime_rank i : (i < 13)%nat -> card.prime i = Ok (nth i card.PRIMES 1).
Proof.
  intros H. do 13 (destruct i as [|i]; [reflexivity|]). lia.
Qed.

Lemma combinations_incl {A : Type} (l : list A) :
  forall k c, In c (combinations l k) -> List.length c = k /\ incl c l.
Proof.
  induction l as [|x l IH]; intros [|k] c; simpl.
  - intros [<-|[]]. split; [reflexivity|]. intros y [].
  - intros [].
  - intros [<-|[]]. split; [reflexivity|]. intros y [].
  - rewrite in_app_iff, in_map_iff. intros [(c' & <- & Hc)|Hc].
    + destruct (IH k c' Hc) as (Hl & Hi). split; [simpl; now rewrite Hl|].
      intros y [<-|Hy]; [now left | right; now apply Hi].
    + destruct (IH (S k) c Hc) as (Hl & Hi). split; [exact Hl|].
      intros y Hy. right. now apply Hi.
Qed.

Lemma list_remove_ranks i l kickers :
  list_remove i l = Ok kickers ->
  S (List.length kickers) = List.length l /\ incl kickers l.
Proof.
  revert kickers. induction l as [|y l IH]; intros kickers; simpl; [discriminate|].
  destruct (Nat.eqb y i).
  - intros [= <-]. split; [reflexivity|]. intros z Hz. now right.
  - destruct (list_remove i l) as [r|e]; simpl; [|discriminate].
    intros [= <-]. destruct (IH r eq_refl) as (Hl & Hi). split; [simpl; lia|].
    intros z [<-|Hz]; [now left | right; now apply Hi].
Qed.

Lemma list_remove_found i l : In i l -> exists kickers, list_remove i l = Ok kickers.
Proof.
  induction l as [|y l IH]; simpl; [contradiction|]. intros Hin.
  destruct (Nat.eqb_spec y i) as [->|Hne]; [eauto|].
  destruct Hin as [->|Hin]; [congruence|].
  destruct (IH Hin) as (r & ->). simpl. eauto.
Qed.

Lemma backwards_ranks_bound i : In i backwards_ranks -> (i < 13)%nat.
Proof. simpl. intros H. repeat destruct H as [<-|H]; lia || contradiction. Qed.

Lemma snd_assign product st : snd (LookupTable.assign product st) = snd st + 1.
Proof. destruct st. reflexivity. Qed.

Section MultiplesNeverRaise.

Local Ltac kickers_of i Hi :=
  let kickers := fresh "kickers" in
  let Ek := fresh "Ek" in
  let Hl := fresh "Hl" in
  let Hincl := fresh "Hincl" in
  destruct (list_remove_found i backwards_ranks Hi) as (kickers & Ek);
  destruct (list_remove_ranks _ _ _ Ek) as (Hl & Hincl);
  rewrite Ek; simpl bind.

Lemma four_of_a_kind_counter u :
  exists u', LookupTable.four_of_a_kind u = Ok (u', LookupTable.MAX_FOUR_OF_A_KIND + 1).
Proof.
  destruct (for_each_counter (S := gmap Z Z * Z) snd 12 backwards_ranks
              (fun i st =>
                 do kickers <- list_remove i backwards_ranks;
                 for_each kickers
                   (fun k st =>
                      do pi <- card.prime i;
                      do pk <- card.prime k;
                      Ok (LookupTable.assign (pi ^ 4 * pk) st))
                   st))
    with (s := (u, LookupTable.MAX_STRAIGHT_FLUSH + 1)) as ([u' c] & E & C).
  - intros i st Hi. kickers_of i Hi.
    destruct (for_each_counter (S := gmap Z Z * Z) snd 1 kickers
                (fun k st =>
                   do pi <- card.prime i;
                   do pk <- card.prime k;
                   Ok (LookupTable.assign (pi ^ 4 * pk) st)))
      with (s := st) as (s' & E' & C').
    + intros k s Hk.
      rewrite (prime_rank i), (prime_rank k)
        by auto using backwards_ranks_bound.
      simpl bind. eexists. split; [reflexivity|apply snd_assign].
    + exists s'. split; [exact E'|]. rewrite C'. simpl in Hl. lia.
  - exists u'. unfold LookupTable.four_of_a_kind. rewrite E.
    cbn [snd] in C. change (List.length backwards_ranks) with 13%nat in C.
    f_equal. f_equal.
    unfold LookupTable.MAX_FOUR_OF_A_KIND, LookupTable.MAX_STRAIGHT_FLUSH in *. lia.
Qed.


Lemma full_house_counter u :
  exists u', LookupTable.full_house u = Ok (u', LookupTable.MAX_FULL_HOUSE + 1).
Proof.
  destruct (for_each_counter (S := gmap Z Z * Z) snd 12 backwards_ranks
              (fun i st =>
                 do pairranks <- list_remove i backwards_ranks;
                 for_each pairranks
                   (fun pr st =>
                      do pi <- card.prime i;
                      do ppr <- card.prime pr;
                      Ok (LookupTable.assign (pi ^ 3 * ppr ^ 2) st))
                   st))
    with (s := (u, LookupTable.MAX_FOUR_OF_A_KIND + 1)) as ([u' c] & E & C).
  - intros i st Hi. kickers_of i Hi.
    destruct (for_each_counter (S := gmap Z Z * Z) snd 1 kickers
                (fun pr st =>
                   do pi <- card.prime i;
                   do ppr <- card.prime pr;
                   Ok (LookupTable.assign (pi ^ 3 * ppr ^ 2) st)))
      with (s := st) as (s' & E' & C').
    + intros k s Hk.
      rewrite (prime_rank i), (prime_rank k)
        by auto using backwards_ranks_bound.
      simpl bind. eexists. split; [reflexivity|apply snd_assign].
    + exists s'. split; [exact E'|]. rewrite C'. simpl in Hl. lia.
  - exists u'. unfold LookupTable.full_house. rewrite E.
    cbn [snd] in C. change (List.length backwards_ranks) with 13%nat in C.
    f_equal. f_equal.
    unfold LookupTable.MAX_FULL_HOUSE, LookupTable.MAX_FOUR_OF_A_KIND in *. lia.
Qed.

Lemma three_of_a_kind_counter u :
  exists u', LookupTable.three_of_a_kind u = Ok (u', LookupTable.MAX_THREE_OF_A_KIND + 1).
Proof.
  destruct (for_each_counter (S := gmap Z Z * Z) snd 66 backwards_ranks
              (fun r st =>
                 do kickers <- list_remove r backwards_ranks;
                 for_each (combinations kickers 2)
                   (fun kickers st =>
                      match kickers with
                      | [c1; c2] =>
                          do pr <- card.prime r;
                          do p1 <- card.prime c1;
                          do p2 <- card.prime c2;
                          Ok (LookupTable.assign (pr ^ 3 * p1 * p2) st)
                      | _ => Raise ValueError
                      end)
                   st))
    with (s := (u, LookupTable.MAX_STRAIGHT + 1)) as ([u' c] & E & C).
  - intros r st Hi. kickers_of r Hi.
    destruct (for_each_counter (S := gmap Z Z * Z) snd 1 (combinations kickers 2)
                (fun kickers st =>
                   match kickers with
                   | [c1; c2] =>
                       do pr <- card.prime r;
                       do p1 <- card.prime c1;
                       do p2 <- card.prime c2;
                       Ok (LookupTable.assign (pr ^ 3 * p1 * p2) st)
                   | _ => Raise ValueError
                   end))
      with (s := st) as (s' & E' & C').
    + intros ks s Hk. apply combinations_incl in Hk as (Hlen & Hin).
      destruct ks as [|c1 [|c2 [|c3 ks]]]; try discriminate Hlen.
      rewrite (prime_rank r), (prime_rank c1), (prime_rank c2)
        by (apply backwards_ranks_bound; auto; apply Hincl, Hin; simpl; auto).
      simpl bind. eexists. split; [reflexivity|apply snd_assign].
    + exists s'. split; [exact E'|]. rewrite C', combinations_length.
      simpl in Hl. injection Hl as ->. reflexivity.
  - exists u'. unfold LookupTable.three_of_a_kind. rewrite E.
    cbn [snd] in C. change (List.length backwards_ranks) with 13%nat in C.
    f_equal. f_equal.
    unfold LookupTable.MAX_THREE_OF_A_KIND, LookupTable.MAX_STRAIGHT in *. lia.
Qed.

Lemma pair_counter u :
  exists u', LookupTable.pair u = Ok (u', LookupTable.MAX_PAIR + 1).
Proof.
  destruct (for_each_counter (S := gmap Z Z * Z) snd 220 backwards_ranks
              (fun pairrank st =>
                 do kickers <- list_remove pairrank backwards_ranks;
                 for_each (combinations kickers 3)
                   (fun kickers st =>
                      match kickers with
                      | [k1; k2; k3] =>
                          do pp <- card.prime pairrank;
                          do p1 <- card.prime k1;
                          do p2 <- card.prime k2;
                          do p3 <- card.prime k3;
                          Ok (LookupTable.assign (pp ^ 2 * p1 * p2 * p3) st)
                      | _ => Raise ValueError
                      end)
                   st))
    with (s := (u, LookupTable.MAX_TWO_PAIR + 1)) as ([u' c] & E & C).
  - intros r st Hi. kickers_of r Hi.
    destruct (for_each_counter (S := gmap Z Z * Z) snd 1 (combinations kickers 3)
                (fun kickers st =>
                   match kickers with
                   | [k1; k2; k3] =>
                       do pp <- card.prime r;
                       do p1 <- card.prime k1;
                       do p2 <- card.prime k2;
                       do p3 <- card.prime k3;
                       Ok (LookupTable.assign (pp ^ 2 * p1 * p2 * p3) st)
                   | _ => Raise ValueError
                   end))
      with (s := st) as (s' & E' & C').
    + intros ks s Hk. apply combinations_incl in Hk as (Hlen & Hin).
      destruct ks as [|c1 [|c2 [|c3 [|c4 ks]]]]; try discriminate Hlen.
      rewrite (prime_rank r), (prime_rank c1), (prime_rank c2), (prime_rank c3)
        by (apply backwards_ranks_bound; auto; apply Hincl, Hin; simpl; auto).
      simpl bind. eexists. split; [reflexivity|apply snd_assign].
    + exists s'. split; [exact E'|]. rewrite C', combinations_length.
      simpl in Hl. injection Hl as ->. reflexivity.
  - exists u'. unfold LookupTable.pair. rewrite E.
    cbn [snd] in C. change (List.length backwards_ranks) with 13%nat in C.
    f_equal. f_equal.
    unfold LookupTable.MAX_PAIR, LookupTable.MAX_TWO_PAIR in *. lia.
Qed.

Lemma two_pair_counter u :
  exists u', LookupTable.two_pair u = Ok (u', LookupTable.MAX_TWO_PAIR + 1).
Proof.
  destruct (for_each_counter (S := gmap Z Z * Z) snd 11
              (combinations backwards_ranks 2)
              (fun tp st =>
                 match tp with
                 | [pair1; pair2] =>
                     do kickers <- list_remove pair1 backwards_ranks;
                     do kickers <- list_remove pair2 kickers;
                     for_each kickers
                       (fun kicker st =>
                          do p1 <- card.prime pair1;
                          do p2 <- card.prime pair2;
                          do pk <- card.prime kicker;
                          Ok (LookupTable.assign (p1 ^ 2 * p2 ^ 2 * pk) st))
                       st
                 | _ => Raise ValueError
                 end))
    with (s := (u, LookupTable.MAX_THREE_OF_A_KIND + 1)) as ([u' c] & E & C).
  - intros tp st Htp. simpl in Htp.
    repeat (destruct Htp as [<-|Htp]; [
      match goal with
      | |- context [list_remove ?p2 ?k] => idtac
      end;
      cbn [list_remove backwards_ranks Nat.eqb bind];
      match goal with
      | |- exists s', for_each ?ks ?body st = Ok s' /\ _ =>
          destruct (for_each_counter (S := gmap Z Z * Z) snd 1 ks body)
            with (s := st) as (s' & E' & C');
          [ intros k s Hk; simpl in Hk;
            repeat (destruct Hk as [<-|Hk];
                    [eexists; split; [reflexivity|apply snd_assign]|]);
            contradiction
          | exists s'; split; [exact E'|rewrite C'; reflexivity] ]
      end |]).
    contradiction.
  - exists u'. unfold LookupTable.two_pair. rewrite E.
    cbn [snd] in C. rewrite combinations_length in C.
    change (binomial (List.length backwards_ranks) 2) with 78%nat in C.
    f_equal. f_equal.
    unfold LookupTable.MAX_TWO_PAIR, LookupTable.MAX_THREE_OF_A_KIND in *. lia.
Qed.

End MultiplesNeverRaise.

Lemma bind_ok {A B : Type} (m : result A) (k : A -> result B) (a : A) :
  m = Ok a -> bind m k = k a.
Proof. intros ->. reflexivity. Qed.

(** X8: whatever the two dictionaries of the object hold, [build_multiples]
    returns: it never raises, and it leaves [flush] as it was. *)
Theorem build_multiples_never_raises (self : LookupTable.t) :
  exists t,
    LookupTable.build_multiples self = Ok t
    /\ LookupTable.flush t = LookupTable.flush self.
Proof.
  destruct (four_of_a_kind_counter (LookupTable.unsuited self)) as (u1 & E1).
  destruct (full_house_counter u1) as (u2 & E2).
  destruct (three_of_a_kind_counter u2) as (u3 & E3).
  destruct (two_pair_counter u3) as (u4 & E4).
  destruct (pair_counter u4) as (u5 & E5).
  exists (LookupTable.mk (LookupTable.flush self) u5).
  split; [|reflexivity].
  unfold LookupTable.build_multiples.
  rewrite (bind_ok _ _ _ E1), (bind_ok _ _ _ E2), (bind_ok _ _ _ E3),
    (bind_ok _ _ _ E4), (bind_ok _ _ _ E5).
  reflexivity.
Qed.

(** ** More on the draw tables *)

Lemma extends_refl d : extends d d.
Proof. intros k. exists []. now rewrite app_nil_r. Qed.

Lemma extends_trans d1 d2 d3 : extends d1 d2 -> extends d2 d3 -> extends d1 d3.
Proof.
  intros H12 H23 k. destruct (H12 k) as (m1 & E1), (H23 k) as (m2 & E2).
  exists (m1 ++ m2). now rewrite E2, E1, app_assoc.
Qed.

(** On a dictionary of non-empty lists [add_rank] succeeds, keeps it one,
    and only lengthens lists. *)
Lemma add_rank_only_lists product rank d :
  only_lists d ->
  exists d', add_rank product rank d = Ok d' /\ only_lists d' /\ extends d d'
             /\ In rank (ranks_at d' product).
Proof.
  intros Hd. unfold add_rank, exist_key.
  destruct (d !! product) as [v|] eqn:E.
  - destruct (Hd _ _ E) as (x & l & ->).
    exists (<[product := PyList ((x :: l) ++ [rank])]> d). split; [reflexivity|].
    split; [|split].
    + intros k v. rewrite lookup_insert. case_decide.
      * intros [= <-]. simpl. eauto.
      * apply Hd.
    + intros k. unfold ranks_at. rewrite lookup_insert. case_decide.
      * subst k. rewrite E. exists [rank]. reflexivity.
      * exists []. now rewrite app_nil_r.
    + unfold ranks_at. rewrite lookup_insert_eq. apply in_or_app. right. now left.
  - exists (<[product := PyList [rank]]> d). split; [reflexivity|].
    split; [|split].
    + intros k v. rewrite lookup_insert. case_decide.
      * intros [= <-]. eauto.
      * apply Hd.
    + intros k. unfold ranks_at. rewrite lookup_insert. case_decide.
      * subst k. rewrite E. exists [rank]. reflexivity.
      * exists []. now rewrite app_nil_r.
    + unfold ranks_at. rewrite lookup_insert_eq. now left.
Qed.

(** On a bare non-zero integer it raises. *)
Lemma add_rank_on_integer product rank d z :
  d !! product = Some (PyInt z) -> z <> 0 ->
  add_rank product rank d = Raise AttributeError.
Proof.
  intros E Hz. unfold add_rank, exist_key. rewrite E.
  destruct (Z.eqb_spec z 0); [contradiction|reflexivity].
Qed.

(** A loop whose body keeps an invariant. *)
Lemma for_each_inv {A S : Type} (P : S -> Prop) (l : list A)
      (body : A -> S -> result S) :
  (forall x s, In x l -> P s -> exists s', body x s = Ok s' /\ P s') ->
  forall s, P s -> exists s', for_each l body s = Ok s' /\ P s'.
Proof.
  induction l as [|x l IH]; intros Hbody s Hs.
  - exists s. now split.
  - destruct (Hbody x s (or_introl eq_refl) Hs) as (s1 & E1 & P1).
    destruct (IH (fun y t Hy => Hbody y t (or_intror Hy)) s1 P1) as (s2 & E2 & P2).
    exists s2. simpl for_each. rewrite E1. now split.
Qed.

Lemma rank_windows_steps patterns :
  forall d rank co,
    only_lists d -> 0 <= co < 10 ->
    exists d',
      for_each patterns
        (fun sf '(d, rank, co) =>
           let '(current_cards, product) := card.product_from_rankbits sf in
           do d <- add_rank product rank d;
           if co =? 9 then Ok (d, rank + 1, 0) else Ok (d, rank, co + 1))
        (d, rank, co)
      = Ok (d', rank + (co + Z.of_nat (List.length patterns)) / 10,
            (co + Z.of_nat (List.length patterns)) mod 10)
      /\ only_lists d' /\ extends d d'.
Proof.
  induction patterns as [|sf ps IH]; intros d rank co Hd Hco.
  - exists d. simpl. rewrite Z.add_0_r, Z.div_small, Z.mod_small, Z.add_0_r by lia.
    auto using extends_refl.
  - simpl for_each. destruct (card.product_from_rankbits sf) as [cards product].
    destruct (add_rank_only_lists product rank d Hd) as (d1 & E1 & Hd1 & Hx1 & _).
    rewrite E1. simpl bind.
    replace (co + Z.of_nat (List.length (sf :: ps)))
      with (co + 1 + Z.of_nat (List.length ps)) by (simpl List.length; lia).
    destruct (Z.eqb_spec co 9) as [->|Hne].
    + destruct (IH d1 (rank + 1) 0 Hd1 ltac:(lia)) as (d' & E & Hd' & Hx).
      rewrite Z.add_0_l in E.
      exists d'. simpl bind. rewrite E. split; [|eauto using extends_trans].
      replace (9 + 1 + Z.of_nat (List.length ps))
        with (Z.of_nat (List.length ps) + 1 * 10) by lia.
      rewrite Z.div_add, Z.mod_add by lia.
      replace (rank + (Z.of_nat (List.length ps) / 10 + 1))
        with (rank + 1 + Z.of_nat (List.length ps) / 10) by lia.
      reflexivity.
    + destruct (IH d1 rank (co + 1) Hd1 ltac:(lia)) as (d' & E & Hd' & Hx).
      exists d'. simpl bind. rewrite E. split; [reflexivity|eauto using extends_trans].
Qed.

(** X11: the loop over the straight windows, from a dictionary of non-empty
    lists: it never raises, only lengthens lists, and moves [rank] on once
    for every ten patterns. *)
Theorem rank_windows_spec (patterns : list Z) (d : gmap Z pyval) (rank : Z) :
  only_lists d ->
  exists d',
    rank_windows patterns d rank
    = Ok (d', rank + Z.of_nat (List.length patterns) / 10,
          Z.of_nat (List.length patterns) mod 10)
    /\ only_lists d' /\ extends d d'.
Proof.
  intros Hd. unfold rank_windows.
  destruct (rank_windows_steps patterns d rank 0 Hd ltac:(lia)) as (d' & E & H).
  exists d'. split; [exact E | exact H].
Qed.

Lemma only_lists_empty : only_lists ∅.
Proof. intros k v H. rewrite lookup_empty in H. discriminate H. Qed.

Lemma rank_windows_spec_witness :
  only_lists ∅
  /\ exists d',
       rank_windows [7; 11; 13] ∅ 1 = Ok (d', 1 + Z.of_nat 3 / 10, Z.of_nat 3 mod 10)
       /\ only_lists d' /\ extends ∅ d'.
Proof.
  split; [exact only_lists_empty|].
  exact (rank_windows_spec [7; 11; 13] ∅ 1 only_lists_empty).
Defined.

Lemma for_each_inv_nonempty {A S : Type} (P Q : S -> Prop) (l : list A)
      (body : A -> S -> result S) :
  (forall s, Q s -> P s) ->
  (forall x s, In x l -> P s -> exists s', body x s = Ok s' /\ Q s') ->
  l <> [] ->
  forall s, P s -> exists s', for_each l body s = Ok s' /\ Q s'.
Proof.
  intros HQP Hbody Hne s Hs. destruct l as [|x l]; [congruence|].
  destruct (Hbody x s (or_introl eq_refl) Hs) as (s1 & E1 & Q1).
  destruct (for_each_inv Q l body) with (s := s1) as (s2 & E2 & Q2).
  - intros y t Hy Ht. apply (Hbody y t (or_intror Hy)), HQP, Ht.
  - exact Q1.
  - exists s2. simpl for_each. rewrite E1. now split.
Qed.

Lemma record_rank_appended d0 product u rank i :
  appended d0 (u, rank, i) ->
  exists u', record_rank product (u, rank, i) = Ok (u', rank + 1, i)
             /\ appended d0 (u', rank + 1, i).
Proof.
  intros (Hl & Hx). unfold record_rank. simpl in *.
  destruct (add_rank_only_lists product rank u Hl) as (u' & E & Hl' & Hx' & _).
  exists u'. rewrite E. split; [reflexivity|].
  split; [exact Hl' | eapply extends_trans; eauto].
Qed.

Lemma set_rank_appended d0 rank st : appended d0 st -> appended d0 (set_rank rank st).
Proof. destruct st as [[u r] i]. auto. Qed.

Lemma set_rank_appended_bound d0 rank st :
  appended_bound d0 st -> appended_bound d0 (set_rank rank st).
Proof. destruct st as [[u r] i]. auto. Qed.

Lemma appended_bound_appended d0 st : appended_bound d0 st -> appended d0 st.
Proof. now intros (H & _). Qed.

Section ThreeCardPasses.

Variable d0 : gmap Z pyval.

Lemma from_trips_appended st :
  appended d0 st ->
  exists st', LookupTableThreeCards.from_trips st = Ok st' /\ appended_bound d0 st'.
Proof.
  apply (for_each_inv_nonempty (appended d0) (appended_bound d0));
    [apply appended_bound_appended | | discriminate].
  intros i [[u rank] vi] Hi Hs. pose proof (backwards_ranks_bound i Hi) as Hb.
  rewrite (prime_rank i Hb). cbn [bind].
  destruct (record_rank_appended d0 (nth i card.PRIMES 1 ^ 3) u rank (Some i))
    as (u' & E & H'); [exact Hs|].
  rewrite E. eexists. split; [reflexivity|]. split; [exact H'|]. exists i. auto.
Qed.

Lemma from_pair_appended st :
  appended d0 st ->
  exists st', LookupTableThreeCards.from_pair st = Ok st' /\ appended_bound d0 st'.
Proof.
  apply (for_each_inv_nonempty (appended d0) (appended_bound d0));
    [apply appended_bound_appended | | discriminate].
  intros i [[u rank] vi] Hi Hs. pose proof (backwards_ranks_bound i Hi) as Hb.
  destruct (list_remove_found i backwards_ranks Hi) as (kickers & Ek).
  destruct (list_remove_ranks _ _ _ Ek) as (_ & Hincl). rewrite Ek. cbn [bind].
  apply (for_each_inv (appended_bound d0)).
  - intros k [[u1 r1] i1] Hk ((Hl1 & Hx1) & (j & Ej & Hj)).
    rewrite (prime_rank i Hb), (prime_rank k)
      by (apply backwards_ranks_bound, Hincl, Hk).
    cbn [bind].
    destruct (record_rank_appended d0 (nth i card.PRIMES 1 ^ 2 * nth k card.PRIMES 1)
                u1 r1 i1) as (u' & E & H'); [now split|].
    rewrite E. eexists. split; [reflexivity|]. split; [exact H'|]. exists j. auto.
  - split; [exact Hs|]. exists i. auto.
Qed.

Lemma two_pairs_from_pair_appended st :
  appended_bound d0 st ->
  exists st', LookupTableThreeCards.two_pairs_from_pair st = Ok st'
              /\ appended_bound d0 st'.
Proof.
  apply (for_each_inv (appended_bound d0)).
  intros r s Hr Hs.
  destruct (list_remove_found r backwards_ranks Hr) as (kickers & Ek).
  destruct (list_remove_ranks _ _ _ Ek) as (_ & Hincl). rewrite Ek. cbn [bind].
  revert s Hs. apply (for_each_inv (appended_bound d0)).
  intros k [[u1 r1] i1] Hk ((Hl1 & Hx1) & (j & Ej & Hj)).
  simpl in Ej. subst i1. cbn [read_i bind].
  rewrite (prime_rank j Hj), (prime_rank k)
    by (apply backwards_ranks_bound, Hincl, Hk).
  cbn [bind].
  destruct (record_rank_appended d0 (nth j card.PRIMES 1 ^ 2 * nth k card.PRIMES 1)
              u1 r1 (Some j)) as (u' & E & H'); [now split|].
  rewrite E. eexists. split; [reflexivity|]. split; [exact H'|]. exists j. auto.
Qed.

Lemma from_highcard_appended st :
  appended_bound d0 st ->
  exists st', LookupTableThreeCards.from_highcard st = Ok st'
              /\ appended_bound d0 st'.
Proof.
  apply (for_each_inv (appended_bound d0)).
  intros r [[u1 r1] i1] Hr ((Hl1 & Hx1) & (j & Ej & Hj)).
  apply combinations_incl in Hr as (Hlen & Hin).
  destruct r as [|c1 [|c2 [|c3 [|c4 r]]]]; try discriminate Hlen.
  rewrite (prime_rank c1), (prime_rank c2), (prime_rank c3)
    by (apply backwards_ranks_bound, Hin; simpl; auto).
  cbn [bind].
  destruct (record_rank_appended d0
              (nth c1 card.PRIMES 1 * nth c2 card.PRIMES 1 * nth c3 card.PRIMES 1)
              u1 r1 i1) as (u' & E & H'); [now split|].
  rewrite E. eexists. split; [reflexivity|]. split; [exact H'|]. exists j. auto.
Qed.

End ThreeCardPasses.

(** X9: from a dictionary [unsuited] of non-empty lists, as [build_flushes]
    leaves it, [build_multiples] of the three-card table never raises,
    leaves [flush] alone, and only appends: every list of [unsuited] is
    still there, as the beginning of the list of the same signature. *)
Theorem three_card_multiples_only_append (self : LookupTableThreeCards.t) :
  only_lists (LookupTableThreeCards.unsuited self) ->
  exists t,
    LookupTableThreeCards.build_multiples self = Ok t
    /\ LookupTableThreeCards.flush t = LookupTableThreeCards.flush self
    /\ only_lists (LookupTableThreeCards.unsuited t)
    /\ extends (LookupTableThreeCards.unsuited self) (LookupTableThreeCards.unsuited t).
Proof.
  intros Hl. set (d0 := LookupTableThreeCards.unsuited self).
  assert (H0 : appended d0 (d0, 0, None))
    by (split; [exact Hl | apply extends_refl]).
  destruct (from_trips_appended d0 _ (set_rank_appended d0 (LookupTableThreeCards.MAX_STRAIGHT_FLUSH + 1) _ H0))
    as (s1 & E1 & H1).
  destruct (from_pair_appended d0 s1 (appended_bound_appended _ _ H1)) as (s2 & E2 & H2).
  destruct (from_trips_appended d0 _ (set_rank_appended d0 (LookupTableThreeCards.MAX_FOUR_OF_A_KIND + 1) _ (appended_bound_appended _ _ H2)))
    as (s3 & E3 & H3).
  destruct (from_pair_appended d0 s3 (appended_bound_appended _ _ H3)) as (s4 & E4 & H4).
  destruct (from_pair_appended d0 _ (set_rank_appended d0 (LookupTableThreeCards.MAX_STRAIGHT + 1) _ (appended_bound_appended _ _ H4)))
    as (s5 & E5 & H5).
  destruct (from_highcard_appended d0 s5 H5) as (s6 & E6 & H6).
  destruct (two_pairs_from_pair_appended d0 _ (set_rank_appended_bound d0 (LookupTableThreeCards.MAX_THREE_OF_A_KIND + 1) _ H6))
    as (s7 & E7 & H7).
  destruct (from_highcard_appended d0 s7 H7) as (s8 & E8 & H8).
  destruct (from_highcard_appended d0 _ (set_rank_appended_bound d0 (LookupTableThreeCards.MAX_TWO_PAIR + 1) _ H8))
    as (s9 & E9 & H9).
  destruct s9 as [[u9 r9] i9].
  exists (LookupTableThreeCards.mk (LookupTableThreeCards.flush self) u9).
  destruct H9 as ((Hl9 & Hx9) & _).
  split; [|split; [reflexivity | split; [exact Hl9 | exact Hx9]]].
  unfold LookupTableThreeCards.build_multiples,
    LookupTableThreeCards.four_of_a_kind, LookupTableThreeCards.full_house,
    LookupTableThreeCards.three_of_a_kind, LookupTableThreeCards.two_pairs,
    LookupTableThreeCards.one_pair.
  fold d0.
  rewrite (bind_ok _ _ _ E1), E2.
  rewrite (bind_ok _ _ _ eq_refl).
  rewrite (bind_ok _ _ _ E3), E4.
  rewrite (bind_ok _ _ _ eq_refl).
  rewrite (bind_ok _ _ _ E5), E6.
  rewrite (bind_ok _ _ _ eq_refl).
  rewrite (bind_ok _ _ _ E7), E8.
  rewrite (bind_ok _ _ _ eq_refl).
  rewrite E9. reflexivity.
Qed.

Section FourCardPasses.

Variable d0 : gmap Z pyval.

Lemma four_from_trips_appended st :
  appended d0 st ->
  exists st', LookupTableFourCards.from_trips st = Ok st' /\ appended d0 st'.
Proof.
  apply (for_each_inv (appended d0)).
  intros i [[u rank] vi] Hi Hs. pose proof (backwards_ranks_bound i Hi) as Hb.
  destruct (list_remove_found i backwards_ranks Hi) as (kickers & Ek).
  destruct (list_remove_ranks _ _ _ Ek) as (_ & Hincl). rewrite Ek. cbn [bind].
  apply (for_each_inv (appended d0)); [|exact Hs].
  intros k [[u1 r1] i1] Hk H1.
  rewrite (prime_rank i Hb), (prime_rank k)
    by (apply backwards_ranks_bound, Hincl, Hk).
  cbn [bind].
  destruct (record_rank_appended d0 (nth i card.PRIMES 1 ^ 3 * nth k card.PRIMES 1)
              u1 r1 i1 H1) as (u' & E & H').
  rewrite E. eauto.
Qed.

Lemma four_from_two_pairs_appended st :
  appended d0 st ->
  exists st', LookupTableFourCards.from_two_pairs st = Ok st' /\ appended d0 st'.
Proof.
  apply (for_each_inv (appended d0)).
  intros i [[u rank] vi] Hi Hs. pose proof (backwards_ranks_bound i Hi) as Hb.
  destruct (list_remove_found i backwards_ranks Hi) as (kickers & Ek).
  destruct (list_remove_ranks _ _ _ Ek) as (_ & Hincl). rewrite Ek. cbn [bind].
  apply (for_each_inv (appended d0)); [|exact Hs].
  intros k [[u1 r1] i1] Hk H1.
  rewrite (prime_rank i Hb), (prime_rank k)
    by (apply backwards_ranks_bound, Hincl, Hk).
  cbn [bind].
  destruct (record_rank_appended d0 (nth i card.PRIMES 1 ^ 2 * nth k card.PRIMES 1 ^ 2)
              u1 r1 i1 H1) as (u' & E & H').
  rewrite E. eauto.
Qed.

Lemma four_from_pair_appended st :
  appended d0 st ->
  exists st', LookupTableFourCards.from_pair st = Ok st' /\ appended d0 st'.
Proof.
  apply (for_each_inv (appended d0)).
  intros pr s Hi Hs. pose proof (backwards_ranks_bound pr Hi) as Hb.
  destruct (list_remove_found pr backwards_ranks Hi) as (kickers & Ek).
  destruct (list_remove_ranks _ _ _ Ek) as (_ & Hincl). rewrite Ek. cbn [bind].
  revert s Hs. apply (for_each_inv (appended d0)).
  intros ks [[u1 r1] i1] Hk H1. apply combinations_incl in Hk as (Hlen & Hin).
  destruct ks as [|k1 [|k2 [|k3 ks]]]; try discriminate Hlen.
  rewrite (prime_rank pr Hb), (prime_rank k1), (prime_rank k2)
    by (apply backwards_ranks_bound, Hincl, Hin; simpl; auto).
  cbn [bind].
  destruct (record_rank_appended d0
              (nth pr card.PRIMES 1 ^ 2 * nth k1 card.PRIMES 1 * nth k2 card.PRIMES 1)
              u1 r1 i1 H1) as (u' & E & H').
  rewrite E. eauto.
Qed.

Lemma four_from_highcard_appended st :
  appended d0 st ->
  exists st', LookupTableFourCards.from_highcard st = Ok st' /\ appended d0 st'.
Proof.
  apply (for_each_inv (appended d0)).
  intros r [[u1 r1] i1] Hr H1. apply combinations_incl in Hr as (Hlen & Hin).
  destruct r as [|c1 [|c2 [|c3 [|c4 [|c5 r]]]]]; try discriminate Hlen.
  rewrite (prime_rank c1), (prime_rank c2), (prime_rank c3), (prime_rank c4)
    by (apply backwards_ranks_bound, Hin; simpl; auto).
  cbn [bind].
  destruct (record_rank_appended d0
              (nth c1 card.PRIMES 1 * nth c2 card.PRIMES 1
               * nth c3 card.PRIMES 1 * nth c4 card.PRIMES 1)
              u1 r1 i1 H1) as (u' & E & H').
  rewrite E. eauto.
Qed.

End FourCardPasses.

(** X10: the same of the four-card table: from a dictionary [unsuited] of
    non-empty lists its [build_multiples] never raises, leaves [flush]
    alone and only appends. *)
Theorem four_card_multiples_only_append (self : LookupTableFourCards.t) :
  only_lists (LookupTableFourCards.unsuited self) ->
  exists t,
    LookupTableFourCards.build_multiples self = Ok t
    /\ LookupTableFourCards.flush t = LookupTableFourCards.flush self
    /\ only_lists (LookupTableFourCards.unsuited t)
    /\ extends (LookupTableFourCards.unsuited self) (LookupTableFourCards.unsuited t).
Proof.
  intros Hl. set (d0 := LookupTableFourCards.unsuited self).
  assert (H0 : appended d0 (d0, 0, None))
    by (split; [exact Hl | apply extends_refl]).
  destruct (four_from_trips_appended d0 _ (set_rank_appended d0 (LookupTableFourCards.MAX_STRAIGHT_FLUSH + 1) _ H0))
    as (s1 & E1 & H1).
  destruct (four_from_trips_appended d0 _ (set_rank_appended d0 (LookupTableFourCards.MAX_FOUR_OF_A_KIND + 1) _ H1))
    as (s2 & E2 & H2).
  destruct (four_from_two_pairs_appended d0 s2 H2) as (s3 & E3 & H3).
  destruct (four_from_pair_appended d0 _ (set_rank_appended d0 (LookupTableFourCards.MAX_STRAIGHT + 1) _ H3))
    as (s4 & E4 & H4).
  destruct (four_from_pair_appended d0 _ (set_rank_appended d0 (LookupTableFourCards.MAX_THREE_OF_A_KIND + 1) _ H4))
    as (s5 & E5 & H5).
  destruct (four_from_highcard_appended d0 _ (set_rank_appended d0 (LookupTableFourCards.MAX_TWO_PAIR + 1) _ H5))
    as (s6 & E6 & H6).
  destruct s6 as [[u6 r6] i6].
  exists (LookupTableFourCards.mk (LookupTableFourCards.flush self) u6).
  destruct H6 as (Hl6 & Hx6).
  split; [|split; [reflexivity | split; [exact Hl6 | exact Hx6]]].
  unfold LookupTableFourCards.build_multiples,
    LookupTableFourCards.four_of_a_kind, LookupTableFourCards.full_house,
    LookupTableFourCards.three_of_a_kind, LookupTableFourCards.two_pairs,
    LookupTableFourCards.one_pair.
  fold d0.
  rewrite E1. rewrite (bind_ok _ _ _ eq_refl).
  rewrite (bind_ok _ _ _ E2), E3. rewrite (bind_ok _ _ _ eq_refl).
  rewrite E4. rewrite (bind_ok _ _ _ eq_refl).
  rewrite E5. rewrite (bind_ok _ _ _ eq_refl).
  rewrite E6. reflexivity.
Qed.

Lemma three_card_multiples_only_append_witness :
  only_lists (LookupTableThreeCards.unsuited (LookupTableThreeCards.mk ∅ ∅))
  /\ exists t,
       LookupTableThreeCards.build_multiples (LookupTableThreeCards.mk ∅ ∅) = Ok t
       /\ LookupTableThreeCards.flush t = ∅
       /\ only_lists (LookupTableThreeCards.unsuited t)
       /\ extends ∅ (LookupTableThreeCards.unsuited t).
Proof.
  split; [exact only_lists_empty|].
  exact (three_card_multiples_only_append (LookupTableThreeCards.mk ∅ ∅) only_lists_empty).
Defined.

Lemma four_card_multiples_only_append_witness :
  only_lists (LookupTableFourCards.unsuited (LookupTableFourCards.mk ∅ ∅))
  /\ exists t,
       LookupTableFourCards.build_multiples (LookupTableFourCards.mk ∅ ∅) = Ok t
       /\ LookupTableFourCards.flush t = ∅
       /\ only_lists (LookupTableFourCards.unsuited t)
       /\ extends ∅ (LookupTableFourCards.unsuited t).
Proof.
  split; [exact only_lists_empty|].
  exact (four_card_multiples_only_append (LookupTableFourCards.mk ∅ ∅) only_lists_empty).
Defined.

Lemma three_card_table_checked :
  holds LookupTableThreeCards.build check_three_cards = true.
Proof. vm_compute. reflexivity. Qed.

(** X12: the three-card table has an entry for every hand: any three ranks have
    a true (non-empty) value in [unsuited], and three different ranks have
    a value in [flush]. *)
Theorem three_card_lookups_never_miss :
  exists t,
    LookupTableThreeCards.build = Ok t
    /\ forall r1 r2 r3,
         (r1 < 13)%nat -> (r2 < 13)%nat -> (r3 < 13)%nat ->
         exist_key (LookupTableThreeCards.unsuited t) (prime_product [r1; r2; r3]) = true
         /\ (distinct [r1; r2; r3] = true ->
             exists v, LookupTableThreeCards.flush t !! prime_product [r1; r2; r3] = Some v).
Proof.
  destruct (holds_spec _ _ three_card_table_checked) as (t & Hb & Hc).
  exists t. split; [exact Hb|]. intros r1 r2 r3 H1 H2 H3.
  unfold check_three_cards in Hc.
  rewrite forallb_forall in Hc. specialize (Hc r1 ltac:(apply in_seq; lia)).
  rewrite forallb_forall in Hc. specialize (Hc r2 ltac:(apply in_seq; lia)).
  rewrite forallb_forall in Hc. specialize (Hc r3 ltac:(apply in_seq; lia)).
  cbv zeta in Hc. apply andb_prop in Hc as (Hu & Hf).
  split; [exact Hu|]. intros Hd. rewrite Hd in Hf.
  destruct (LookupTableThreeCards.flush t !! prime_product [r1; r2; r3]) as [v|];
    [eauto | discriminate Hf].
Qed.

Lemma three_card_lookups_never_miss_witness :
  exists t,
    LookupTableThreeCards.build = Ok t
    /\ exist_key (LookupTableThreeCards.unsuited t) (prime_product [12; 12; 3]%nat) = true.
Proof.
  destruct three_card_lookups_never_miss as (t & Hb & H).
  exists t. split; [exact Hb|]. apply (H 12 12 3)%nat; lia.
Defined.

Lemma four_card_table_checked :
  holds LookupTableFourCards.build check_four_cards = true.
Proof. vm_compute. reflexivity. Qed.

(** X13: the four-card table has a true (non-empty) value in [unsuited] for any
    four ranks that are not all the same, and no entry at all for four of
    one rank: looking up made quads misses. *)
Theorem four_card_lookups_miss_only_quads :
  exists t,
    LookupTableFourCards.build = Ok t
    /\ forall r1 r2 r3 r4,
         (r1 < 13)%nat -> (r2 < 13)%nat -> (r3 < 13)%nat -> (r4 < 13)%nat ->
         if has_count 4 [r1; r2; r3; r4]
         then LookupTableFourCards.unsuited t !! prime_product [r1; r2; r3; r4] = None
         else exist_key (LookupTableFourCards.unsuited t)
                (prime_product [r1; r2; r3; r4]) = true.
Proof.
  destruct (holds_spec _ _ four_card_table_checked) as (t & Hb & Hc).
  exists t. split; [exact Hb|]. intros r1 r2 r3 r4 H1 H2 H3 H4.
  unfold check_four_cards in Hc.
  rewrite forallb_forall in Hc. specialize (Hc r1 ltac:(apply in_seq; lia)).
  rewrite forallb_forall in Hc. specialize (Hc r2 ltac:(apply in_seq; lia)).
  rewrite forallb_forall in Hc. specialize (Hc r3 ltac:(apply in_seq; lia)).
  rewrite forallb_forall in Hc. specialize (Hc r4 ltac:(apply in_seq; lia)).
  cbv zeta in Hc. destruct (has_count 4 [r1; r2; r3; r4]); [|exact Hc].
  destruct (LookupTableFourCards.unsuited t !! prime_product [r1; r2; r3; r4]);
    [discriminate Hc | reflexivity].
Qed.

Lemma four_card_lookups_miss_only_quads_witness :
  exists t,
    LookupTableFourCards.build = Ok t
    /\ LookupTableFourCards.unsuited t !! prime_product [12; 12; 12; 12]%nat = None.
Proof.
  destruct four_card_lookups_miss_only_quads as (t & Hb & H).
  exists t. split; [exact Hb|]. apply (H 12 12 12 12)%nat; lia.
Defined.

(** X14: the flush pass of the three-card table hands out 349..570, its window
    up to [MAX_FLUSH]; that of the four-card table hands out 479..1188, 710
    ranks where the window to [MAX_FLUSH] = 1152 has room for 674. *)
Theorem draw_table_flush_ranks :
  exists t3 t4,
    LookupTableThreeCards.build = Ok t3
    /\ integers_of (LookupTableThreeCards.flush t3)
       = count_from (LookupTableThreeCards.MAX_FULL_HOUSE + 1) 222
    /\ LookupTableThreeCards.MAX_FULL_HOUSE + 222 = LookupTableThreeCards.MAX_FLUSH
    /\ LookupTableFourCards.build = Ok t4
    /\ integers_of (LookupTableFourCards.flush t4)
       = count_from (LookupTableFourCards.MAX_FULL_HOUSE + 1) 710
    /\ LookupTableFourCards.MAX_FLUSH < LookupTableFourCards.MAX_FULL_HOUSE + 710.
Proof.
  assert (H3 : holds LookupTableThreeCards.build (fun t =>
      bool_decide (integers_of (LookupTableThreeCards.flush t)
                   = count_from (LookupTableThreeCards.MAX_FULL_HOUSE + 1) 222)) = true)
    by (vm_compute; reflexivity).
  assert (H4 : holds LookupTableFourCards.build (fun t =>
      bool_decide (integers_of (LookupTableFourCards.flush t)
                   = count_from (LookupTableFourCards.MAX_FULL_HOUSE + 1) 710)) = true)
    by (vm_compute; reflexivity).
  apply holds_spec in H3 as (t3 & E3 & H3), H4 as (t4 & E4 & H4).
  apply bool_decide_eq_true in H3, H4.
  exists t3, t4.
  split; [exact E3|]. split; [exact H3|]. split; [reflexivity|].
  split; [exact E4|]. split; [exact H4|]. reflexivity.
Qed.

Lemma StronglySorted_snoc (R : Z -> Z -> Prop) (l : list Z) (x : Z) :
  StronglySorted R l -> Forall (fun y => R y x) l -> StronglySorted R (l ++ [x]).
Proof.
  induction 1 as [|y l Hl IH Hy]; intros Hall; simpl.
  - repeat constructor.
  - inversion Hall as [|? ? Hyx Hall']; subst.
    constructor; [now apply IH|].
    apply Forall_app. split; [exact Hy|]. repeat constructor. exact Hyx.
Qed.

Lemma Sorted_lt_rev_gt (l : list Z) : Sorted Z.lt l -> Sorted Z.gt (rev l).
Proof.
  intros H. apply Sorted_StronglySorted in H; [|intros x y z; apply Z.lt_trans].
  apply StronglySorted_Sorted.
  induction H as [|x l Hl IH Hx]; simpl; [constructor|].
  apply StronglySorted_snoc; [exact IH|].
  apply List.Forall_forall. intros y Hy. apply in_rev in Hy.
  rewrite List.Forall_forall in Hx. specialize (Hx y Hy). lia.
Qed.

(** X15: what [build_flushes] keeps of the generated flushes: the patterns that
    are in [flushes] and not among the straight-flush draws, each once, in
    strictly decreasing order. *)
Theorem remove_draws_spec (flushes straight_flushes : list Z) :
  (forall x, In x (remove_draws flushes straight_flushes)
             <-> In x flushes /\ ~ In x straight_flushes)
  /\ Sorted Z.gt (remove_draws flushes straight_flushes).
Proof.
  unfold remove_draws.
  set (s := (list_to_set flushes ∖ list_to_set straight_flushes : gset Z)).
  pose proof (merge_sort_Permutation Z.le (elements s)) as Hp.
  split.
  - intros x. rewrite <- in_rev.
    rewrite <- !list_elem_of_In. rewrite Hp, elem_of_elements.
    unfold s. rewrite elem_of_difference, !elem_of_list_to_set. reflexivity.
  - apply Sorted_lt_rev_gt.
    assert (Hs : Sorted Z.le (merge_sort Z.le (elements s)))
      by (apply Sorted_merge_sort; intros x y; lia).
    assert (Hn : NoDup (merge_sort Z.le (elements s)))
      by (rewrite Hp; apply NoDup_elements).
    revert Hs Hn. generalize (merge_sort Z.le (elements s)). intros l Hs Hn.
    apply Sorted_StronglySorted in Hs; [|intros x y z; apply Z.le_trans].
    apply StronglySorted_Sorted.
    induction Hs as [|x l Hl IH Hx]; [constructor|].
    apply NoDup_cons in Hn as (Hnx & Hn).
    constructor; [now apply IH|].
    apply List.Forall_forall. intros y Hy. rewrite List.Forall_forall in Hx.
    specialize (Hx y Hy).
    assert (x <> y) by (intros ->; apply Hnx, list_elem_of_In, Hy). lia.
Qed.

(** ** More on the multi-card evaluator *)

Section OmahaMore.

Variable Card : Type.
Variable _five : list Card -> Z.

Local Abbreviation _eightnineten := (OmahaEvaluator._eightnineten Card _five).
Local Abbreviation all5cardscombos := (OmahaEvaluator.all5cardscombos Card).


(** X17: every list handed to [_five] is two cards followed by all the cards
    after the fifth: [len(cards) - 3] cards, so five only for a hand of
    eight, six for nine and seven for ten. *)
Theorem eightnineten_combo_sizes (cards combo : list Card) :
  (5 <= List.length cards)%nat ->
  In combo (all5cardscombos cards) ->
  List.length combo = (List.length cards - 3)%nat.
Proof.
  intros Hlen Hin. unfold OmahaEvaluator.all5cardscombos,
    OmahaEvaluator.all2cardscombos in Hin.
  apply in_map_iff in Hin as (pair & <- & Hp).
  apply combinations_incl in Hp as (Hl & _).
  rewrite length_app, Hl, length_skipn. lia.
Qed.

End OmahaMore.


Lemma eightnineten_combo_sizes_witness :
  (5 <= List.length [1; 2; 3; 4; 5; 6; 7; 8; 9]%nat)%nat
  /\ In [1; 2; 6; 7; 8; 9]%nat
        (OmahaEvaluator.all5cardscombos nat [1; 2; 3; 4; 5; 6; 7; 8; 9]%nat)
  /\ List.length [1; 2; 6; 7; 8; 9]%nat
     = (List.length [1; 2; 3; 4; 5; 6; 7; 8; 9]%nat - 3)%nat.
Proof.
  assert (H1 : (5 <= List.length [1; 2; 3; 4; 5; 6; 7; 8; 9]%nat)%nat)
    by (simpl; lia).
  assert (H2 : In [1; 2; 6; 7; 8; 9]%nat
                 (OmahaEvaluator.all5cardscombos nat [1; 2; 3; 4; 5; 6; 7; 8; 9]%nat))
    by (left; reflexivity).
  split; [exact H1|]. split; [exact H2|].
  exact (eightnineten_combo_sizes nat _ _ H1 H2).
Defined.

(** ** The multi-card evaluator over the five-card table *)

Section OmahaRaisingFacts.

Variable Card : Type.

(** A hand of fewer than 5 or more than 10 cards has no handler. *)
Lemma evaluate_unsupported_size (_five : list Card -> result Z) cards :
  ~ (5 <= List.length cards <= 10)%nat ->
  OmahaEvaluatorRaising.evaluate Card _five cards = Raise KeyError.
Proof.
  unfold OmahaEvaluatorRaising.evaluate, OmahaEvaluatorRaising.hand_size_map.
  destruct (List.length cards) as [|[|[|[|[|[|[|[|[|[|[|n]]]]]]]]]]];
    intros H; try reflexivity; lia.
Qed.

(** What a supported call returns is found by scoring [scored cards]. *)
Lemma evaluate_raising_scored (_five : list Card -> result Z) cards :
  (5 <= List.length cards <= 10)%nat ->
  OmahaEvaluatorRaising.evaluate Card _five cards
  = if Nat.eqb (List.length cards) 5 then _five cards
    else OmahaEvaluatorRaising.best Card _five (OmahaEvaluator.scored Card cards).
Proof.
  unfold OmahaEvaluatorRaising.evaluate, OmahaEvaluatorRaising.hand_size_map,
    OmahaEvaluator.scored.
  destruct (List.length cards) as [|[|[|[|[|[|[|[|[|[|[|n]]]]]]]]]]]; simpl;
    intros H; try lia; reflexivity.
Qed.

(** With a five-card score that never raises, the scanning loop is the
    fold of [OmahaEvaluator.best]. *)
Lemma best_of_total_score (f : list Card -> Z) combos : forall m0,
  for_each combos
    (fun combo minimum =>
       do score <- Ok (f combo);
       Ok (if score <? minimum then score else minimum)) m0
  = Ok (fold_left
          (fun minimum combo =>
             let score := f combo in
             if score <? minimum then score else minimum)
          combos m0).
Proof.
  induction combos as [|c combos IH]; intros m0; [reflexivity|].
  cbn [for_each bind fold_left]. apply IH.
Qed.

(** And [evaluate] returns what [OmahaEvaluator.evaluate] does. *)
Lemma evaluate_of_total_score (f : list Card -> Z) cards :
  OmahaEvaluatorRaising.evaluate Card (fun c => Ok (f c)) cards
  = OmahaEvaluator.evaluate Card f cards.
Proof.
  unfold OmahaEvaluatorRaising.evaluate, OmahaEvaluator.evaluate,
    OmahaEvaluatorRaising.hand_size_map, OmahaEvaluator.hand_size_map.
  destruct (List.length cards) as [|[|[|[|[|[|[|[|[|[|[|n]]]]]]]]]]];
    try reflexivity;
    apply (best_of_total_score f _ LookupTable.MAX_HIGH_CARD).
Qed.

(** The scanning loop from any starting minimum, when no score raises. *)
Lemma scan_raising_least (_five : list Card -> result Z) combos : forall m0,
  Forall (fun combo => exists s, _five combo = Ok s) combos ->
  exists r,
    for_each combos
      (fun combo minimum =>
         do score <- _five combo;
         Ok (if score <? minimum then score else minimum)) m0 = Ok r
    /\ r <= m0
    /\ Forall (fun combo => exists s, _five combo = Ok s /\ r <= s) combos
    /\ (r = m0 \/ Exists (fun combo => _five combo = Ok r) combos).
Proof.
  induction combos as [|c combos IH]; intros m0 Hok.
  - exists m0. split; [reflexivity|]. split; [lia|]. split; [constructor|now left].
  - inversion Hok as [|? ? (s & Es) Hok']; subst.
    destruct (IH (if s <? m0 then s else m0) Hok') as (r & Er & Hle & Hall & Hin).
    exists r. cbn [for_each]. rewrite (bind_ok _ _ _ Es).
    split; [exact Er|].
    destruct (Z.ltb_spec s m0) as [Hlt|Hge].
    + split; [lia|]. split.
      * constructor; [exists s; split; [exact Es|exact Hle] | exact Hall].
      * right. destruct Hin as [->|Hin]; [now left | now right].
    + split; [lia|]. split.
      * constructor; [exists s; split; [exact Es|lia] | exact Hall].
      * destruct Hin as [Hin|Hin]; [now left | right; now right].
Qed.

End OmahaRaisingFacts.

Lemma combinations_sublist {A : Type} (l : list A) :
  forall k c, In c (combinations l k) -> c `sublist_of` l.
Proof.
  induction l as [|x l IH]; intros [|k] c; simpl.
  - intros [<-|[]]. constructor.
  - intros [].
  - intros [<-|[]]. apply sublist_nil_l.
  - rewrite in_app_iff, in_map_iff. intros [(c' & <- & Hc)|Hc].
    + apply sublist_skip, (IH k), Hc.
    + apply sublist_cons, (IH (S k)), Hc.
Qed.

(** Five of a list of different cards of the deck are a hand. *)
Lemma valid_hand_of_sublist h cards :
  deck_cards cards -> h `sublist_of` cards -> List.length h = 5%nat ->
  valid_hand h.
Proof.
  intros (Hnd & Hr) Hs Hl. split; [exact Hl|]. split.
  - apply NoDup_ListNoDup. eapply sublist_NoDup; [|exact Hs].
    apply NoDup_ListNoDup, Hnd.
  - apply List.Forall_forall. intros c Hc.
    apply (proj1 (List.Forall_forall _ _) Hr).
    apply list_elem_of_In. apply (sublist_subseteq _ _ Hs).
    apply list_elem_of_In, Hc.
Qed.

(** Of 5 to 8 different cards, every list handed to [_five] is a hand. *)
Lemma scored_valid_hands cards :
  deck_cards cards -> (5 <= List.length cards <= 8)%nat ->
  Forall valid_hand (OmahaEvaluator.scored playing_card cards).
Proof.
  intros Hd Hlen. apply List.Forall_forall. intros h Hh.
  unfold OmahaEvaluator.scored in Hh.
  destruct (List.length cards) as [|[|[|[|[|[|[|[|[|n]]]]]]]]] eqn:E; try lia.
  - destruct Hh as [<-|[]]. apply (valid_hand_of_sublist cards cards Hd); [reflexivity|exact E].
  - apply (valid_hand_of_sublist h cards Hd).
    + apply (combinations_sublist cards 5 h Hh).
    + apply (combinations_incl cards 5 h Hh).
  - apply (valid_hand_of_sublist h cards Hd).
    + apply (combinations_sublist cards 5 h Hh).
    + apply (combinations_incl cards 5 h Hh).
  - unfold OmahaEvaluator.all5cardscombos, OmahaEvaluator.all2cardscombos in Hh.
    apply in_map_iff in Hh as (pair & <- & Hp).
    apply (valid_hand_of_sublist _ cards Hd).
    + rewrite <- (firstn_skipn 5 cards) at 2.
      apply sublist_app; [|reflexivity].
      apply (combinations_sublist _ 2 pair Hp).
    + rewrite length_app, length_skipn, E.
      rewrite (proj1 (combinations_incl _ 2 pair Hp)). reflexivity.
Qed.

(** In a table that passes [check_all] the lookup of a hand returns a rank. *)
Lemma table_five_of_valid_hand tbl h :
  check_all tbl = true -> valid_hand h ->
  exists r, table_five tbl h = Ok r /\ 1 <= r <= LookupTable.MAX_HIGH_CARD.
Proof.
  intros Hall Hv. pose proof (shape_of_valid_hand h Hv) as Hs.
  destruct Hv as (Hlen & _ & Hr). revert Hs.
  destruct h as [|c1 [|c2 [|c3 [|c4 [|c5 [|c6 h]]]]]]; try discriminate Hlen.
  intros Hs.
  repeat match goal with H : Forall _ (_ :: _) |- _ => inversion H; clear H; subst end.
  unfold table_five, five_card_rank.
  set (s := same_suit _) in *. set (rs := map rank _) in *.
  assert (Hc : check_shape tbl s rs = true) by (apply check_all_spec; assumption).
  unfold check_shape in Hc. destruct (table_rank tbl s rs) as [r|]; [|discriminate Hc].
  exists r. apply andb_prop in Hc as (Hc & _). apply andb_prop in Hc as (Hlo & Hhi).
  apply Z.leb_le in Hlo, Hhi. unfold LookupTable.MAX_HIGH_CARD. auto.
Qed.

(** So the scan of such lists returns the least of their ranks. *)
Lemma best_of_valid_hands tbl combos :
  check_all tbl = true -> combos <> [] -> Forall valid_hand combos ->
  exists r,
    OmahaEvaluatorRaising.best playing_card (table_five tbl) combos = Ok r
    /\ 1 <= r <= LookupTable.MAX_HIGH_CARD
    /\ least_rank tbl r combos.
Proof.
  intros Hall Hne Hv.
  assert (Hrank : Forall (fun h => exists s, table_five tbl h = Ok s
                                   /\ 1 <= s <= LookupTable.MAX_HIGH_CARD) combos).
  { apply List.Forall_forall. intros h Hh.
    apply (table_five_of_valid_hand tbl h Hall).
    apply (proj1 (List.Forall_forall _ _) Hv), Hh. }
  assert (Hok : Forall (fun h => exists s, table_five tbl h = Ok s) combos).
  { apply List.Forall_forall. intros h Hh.
    destruct (proj1 (List.Forall_forall _ _) Hrank h Hh) as (s & Es & _).
    exists s. exact Es. }
  destruct (scan_raising_least playing_card (table_five tbl) combos
              LookupTable.MAX_HIGH_CARD Hok) as (r & Er & Hle & Hleast & Hin).
  assert (Hex : Exists (fun h => table_five tbl h = Ok r) combos).
  { destruct Hin as [Heq|Hin]; [|exact Hin].
    destruct combos as [|c combos]; [congruence|].
    inversion Hrank as [|? ? (s & Es & Hs) _]; subst.
    inversion Hleast as [|? ? (s' & Es' & Hs') _]; subst.
    left. rewrite Es. f_equal. rewrite Es in Es'. injection Es' as <-. lia. }
  exists r. split; [exact Er|]. split; [|split; [exact Hex|exact Hleast]].
  apply List.Exists_exists in Hex as (h & Hh & Eh).
  destruct (proj1 (List.Forall_forall _ _) Hrank h Hh) as (s & Es & Hs).
  rewrite Eh in Es. injection Es as <-. exact Hs.
Qed.

Lemma scored_nonempty (cards : list playing_card) :
  (5 <= List.length cards <= 10)%nat ->
  OmahaEvaluator.scored playing_card cards <> [].
Proof.
  intros Hlen E. apply (f_equal (@List.length _)) in E. revert E.
  pose proof (all5cardscombos_length playing_card cards ltac:(lia)) as L5.
  unfold OmahaEvaluator.scored.
  destruct (List.length cards) as [|[|[|[|[|[|[|[|[|[|[|n]]]]]]]]]]] eqn:El;
    try lia; try (rewrite L5; discriminate);
    try (rewrite combinations_length, El; discriminate).
  discriminate.
Qed.

Lemma deck_cards_nine : deck_cards nine_cards.
Proof.
  split.
  - repeat constructor; simpl; intuition discriminate.
  - repeat constructor; simpl; lia.
Qed.

Lemma deck_cards_ten : deck_cards ten_cards.
Proof.
  split.
  - repeat constructor; simpl; intuition discriminate.
  - repeat constructor; simpl; lia.
Qed.

(** C8, on the code: [evaluate] raises on a hand of fewer than 5 or more
    than 10 cards, whatever the five-card score, and over the table of
    [build] it returns one rank on 5 to 8 different cards of the deck:
    between 1 and 7462, the least of the ranks of the lists it scores.  On
    9 and 10 cards it returns no rank: for A-K-Q-J-T with the board
    9-8-7-6, and with 9-8-7-6-5, [_eightnineten] hands [_five] lists of
    six and of seven cards, [pair + cards[5:]], whose prime products are
    keys of neither dictionary, and the [KeyError] of the lookup leaves
    [evaluate]; the same cards with the board 9-8-7 give 1603, the
    jack-high straight. *)
Theorem evaluate_raises_on_nine_and_ten_cards :
  (forall (Card : Type) (_five : list Card -> result Z) (cards : list Card),
      ~ (5 <= List.length cards <= 10)%nat ->
      OmahaEvaluatorRaising.evaluate Card _five cards = Raise KeyError)
  /\ exists tbl,
       LookupTable.build = Ok tbl
       /\ (forall cards,
             deck_cards cards -> (5 <= List.length cards <= 8)%nat ->
             exists r,
               OmahaEvaluatorRaising.evaluate playing_card (table_five tbl) cards = Ok r
               /\ 1 <= r <= LookupTable.MAX_HIGH_CARD
               /\ least_rank tbl r (OmahaEvaluator.scored playing_card cards))
       /\ OmahaEvaluatorRaising.evaluate playing_card (table_five tbl) eight_cards
          = Ok 1603
       /\ deck_cards nine_cards /\ List.length nine_cards = 9%nat
       /\ Forall (fun combo => List.length combo = 6%nat /\ unranked tbl combo)
            (OmahaEvaluator.scored playing_card nine_cards)
       /\ OmahaEvaluatorRaising.evaluate playing_card (table_five tbl) nine_cards
          = Raise KeyError
       /\ deck_cards ten_cards /\ List.length ten_cards = 10%nat
       /\ Forall (fun combo => List.length combo = 7%nat /\ unranked tbl combo)
            (OmahaEvaluator.scored playing_card ten_cards)
       /\ OmahaEvaluatorRaising.evaluate playing_card (table_five tbl) ten_cards
          = Raise KeyError.
Proof.
  split; [intros Card _five cards; apply evaluate_unsupported_size|].
  destruct (holds_after_build_spec _ built_check_all) as (tbl & Hb & Hall).
  exists tbl. split; [exact Hb|]. split.
  { intros cards Hd Hlen.
    rewrite evaluate_raising_scored by lia.
    pose proof (scored_valid_hands cards Hd Hlen) as Hv.
    destruct (Nat.eqb_spec (List.length cards) 5) as [E|_].
    - unfold OmahaEvaluator.scored in *. rewrite E in *.
      destruct (table_five_of_valid_hand tbl cards Hall) as (r & Er & Hr).
      { apply (proj1 (List.Forall_forall _ _) Hv). now left. }
      exists r. split; [exact Er|]. split; [exact Hr|]. split.
      + left. exact Er.
      + constructor; [|constructor]. exists r. split; [exact Er|lia].
    - apply (best_of_valid_hands tbl _ Hall); [|exact Hv].
      apply scored_nonempty. lia. }
  assert (Hx : holds_after_build (fun tbl =>
      let unrankedb combo :=
        match LookupTable.flush tbl !! prime_product (map rank combo),
              LookupTable.unsuited tbl !! prime_product (map rank combo) with
        | None, None => true
        | _, _ => false
        end in
      match OmahaEvaluatorRaising.evaluate playing_card (table_five tbl) eight_cards,
            OmahaEvaluatorRaising.evaluate playing_card (table_five tbl) nine_cards,
            OmahaEvaluatorRaising.evaluate playing_card (table_five tbl) ten_cards with
      | Ok r, Raise KeyError, Raise KeyError =>
          (r =? 1603)
          && forallb (fun combo => Nat.eqb (List.length combo) 6 && unrankedb combo)
               (OmahaEvaluator.scored playing_card nine_cards)
          && forallb (fun combo => Nat.eqb (List.length combo) 7 && unrankedb combo)
               (OmahaEvaluator.scored playing_card ten_cards)
      | _, _, _ => false
      end) = true) by (vm_compute; reflexivity).
  apply holds_after_build_spec in Hx as (tbl' & Hb' & Hx).
  assert (tbl' = tbl) by congruence. subst tbl'. clear Hb'.
  destruct (OmahaEvaluatorRaising.evaluate playing_card (table_five tbl) eight_cards)
    as [r8|e8]; [|discriminate Hx].
  destruct (OmahaEvaluatorRaising.evaluate playing_card (table_five tbl) nine_cards)
    as [r9|[]]; try discriminate Hx.
  destruct (OmahaEvaluatorRaising.evaluate playing_card (table_five tbl) ten_cards)
    as [r10|[]]; try discriminate Hx.
  apply andb_prop in Hx as (Hx & H10). apply andb_prop in Hx as (H8 & H9).
  apply Z.eqb_eq in H8. subst r8.
  assert (Hun : forall n combos,
    forallb (fun combo => Nat.eqb (List.length combo) n &&
      match LookupTable.flush tbl !! prime_product (map rank combo),
            LookupTable.unsuited tbl !! prime_product (map rank combo) with
      | None, None => true
      | _, _ => false
      end) combos = true ->
    Forall (fun combo => List.length combo = n /\ unranked tbl combo) combos).
  { intros n combos H. apply List.Forall_forall. intros combo Hc.
    apply (proj1 (forallb_forall _ _) H) in Hc.
    apply andb_prop in Hc as (Hl & Hc). apply Nat.eqb_eq in Hl.
    split; [exact Hl|]. unfold unranked.
    destruct (LookupTable.flush tbl !! _); [discriminate Hc|].
    destruct (LookupTable.unsuited tbl !! _); [discriminate Hc|].
    split; reflexivity. }
  split; [reflexivity|].
  split; [exact deck_cards_nine|]. split; [reflexivity|].
  split; [apply Hun, H9|]. split; [reflexivity|].
  split; [exact deck_cards_ten|]. split; [reflexivity|].
  split; [apply Hun, H10|]. reflexivity.
Qed.
